(** * WhatsUpKent: the record access layer of [pkg/db/operations.go]

    A shallow embedding of the lookup and upsert operations over the Dgraph
    client, with the client seen as a black box that answers the calls made
    on a transaction, and of the part of Go's [encoding/json] that the
    operations rely on. *)

From Stdlib Require Import ZArith NArith String Ascii List DecimalString.
From Stdlib Require HexadecimalString DecimalFacts DecimalPos DecimalN DecimalZ.
From stdpp Require Import base strings gmap list.

Local Open Scope string_scope.
#[local] Set Warnings "-register-all".

(** ** Characters *)

Module Chars.

Definition dquote : ascii := "034"%char.
Definition backslash : ascii := "\"%char.
Definition tab : ascii := "009"%char.
Definition lf : ascii := "010"%char.
Definition cr : ascii := "013"%char.

Definition code (c : ascii) : N := N_of_ascii c.

Definition is_space (c : ascii) : bool :=
  (code c =? 32)%N || (code c =? 9)%N || (code c =? 10)%N || (code c =? 13)%N.

Definition is_digit (c : ascii) : bool :=
  (48 <=? code c)%N && (code c <=? 57)%N.

Definition is_upper (c : ascii) : bool :=
  (65 <=? code c)%N && (code c <=? 90)%N.

Definition to_lower (c : ascii) : ascii :=
  if is_upper c then ascii_of_N (code c + 32) else c.

Definition hex_value (c : ascii) : option N :=
  let n := code c in
  if is_digit c then Some (n - 48)%N
  else if (97 <=? n)%N && (n <=? 102)%N then Some (n - 87)%N
  else if (65 <=? n)%N && (n <=? 70)%N then Some (n - 55)%N
  else None.

Definition hex_digit (n : N) : ascii :=
  if (n <? 10)%N then ascii_of_N (48 + n) else ascii_of_N (87 + n).

End Chars.

(** ** JSON values

    A number keeps its literal, as [encoding/json] does until it knows the
    Go type it decodes into; an object keeps its members in document order,
    duplicates included, because the decoder visits them in that order. *)

Inductive json : Type :=
| JNull
| JBool (b : bool)
| JNumber (literal : string)
| JString (s : string)
| JArray (elements : list json)
| JObject (members : list (string * json)).

Module JSON.

Import Chars.

Fixpoint skip_space (s : string) : string :=
  match s with
  | String c r => if is_space c then skip_space r else s
  | EmptyString => s
  end.

(** [expect lit s] consumes the literal [lit] at the head of [s]. *)
Fixpoint expect (lit s : string) : option string :=
  match lit with
  | EmptyString => Some s
  | String c lit' =>
      match s with
      | String d r => if Ascii.eqb c d then expect lit' r else None
      | EmptyString => None
      end
  end.

(** The digits at the head of [s], and what follows them. *)
Fixpoint span_digits (s : string) : string * string :=
  match s with
  | String c r =>
      if is_digit c then let '(ds, rest) := span_digits r in (String c ds, rest)
      else (EmptyString, s)
  | EmptyString => (EmptyString, s)
  end.

Definition nonempty (s : string) : bool :=
  match s with EmptyString => false | String _ _ => true end.

(** number = [-] int [frac] [exp], where int has no leading zero. *)
Definition scan_int_part (s : string) : option (string * string) :=
  match s with
  | String c r =>
      if Ascii.eqb c "0" then Some ("0", r)
      else if is_digit c then let '(ds, rest) := span_digits r in Some (String c ds, rest)
      else None
  | EmptyString => None
  end.

Definition scan_frac_part (s : string) : option (string * string) :=
  match s with
  | String c r =>
      if Ascii.eqb c "." then
        let '(ds, rest) := span_digits r in
        if nonempty ds then Some (String c ds, rest) else None
      else Some (EmptyString, s)
  | EmptyString => Some (EmptyString, s)
  end.

Definition scan_exp_part (s : string) : option (string * string) :=
  match s with
  | String c r =>
      if Ascii.eqb c "e" || Ascii.eqb c "E" then
        let '(sign, r1) :=
          match r with
          | String d r' =>
              if Ascii.eqb d "+" || Ascii.eqb d "-" then (String d EmptyString, r') else (EmptyString, r)
          | EmptyString => (EmptyString, r)
          end in
        let '(ds, rest) := span_digits r1 in
        if nonempty ds then Some (String c (sign +:+ ds), rest) else None
      else Some (EmptyString, s)
  | EmptyString => Some (EmptyString, s)
  end.

Definition scan_number (s : string) : option (string * string) :=
  let '(sign, r0) :=
    match s with
    | String c r => if Ascii.eqb c "-" then ("-", r) else (EmptyString, s)
    | EmptyString => (EmptyString, s)
    end in
  '(ip, r1) ← scan_int_part r0;
  '(fp, r2) ← scan_frac_part r1;
  '(ep, r3) ← scan_exp_part r2;
  Some (sign +:+ ip +:+ fp +:+ ep, r3).

(** A string literal is scanned into units: the bytes that stand for
    themselves, and the UTF-16 code units written as [\uXXXX]. Bytes that
    are not valid UTF-8 are kept, where [encoding/json] writes U+FFFD. *)
Inductive unit16 : Type :=
| Raw (c : ascii)
| U16 (n : N).

Definition simple_escape (c : ascii) : option ascii :=
  if Ascii.eqb c dquote then Some dquote
  else if Ascii.eqb c backslash then Some backslash
  else if Ascii.eqb c "/" then Some "/"%char
  else if Ascii.eqb c "b" then Some "008"%char
  else if Ascii.eqb c "f" then Some "012"%char
  else if Ascii.eqb c "n" then Some lf
  else if Ascii.eqb c "r" then Some cr
  else if Ascii.eqb c "t" then Some tab
  else None.

(** The body of a string literal, after its opening quote. *)
Fixpoint scan_units (s : string) : option (list unit16 * string) :=
  match s with
  | EmptyString => None
  | String c r =>
      if Ascii.eqb c dquote then Some ([], r)
      else if Ascii.eqb c backslash then
        match r with
        | String e r1 =>
            match simple_escape e with
            | Some x => '(us, rest) ← scan_units r1; Some (Raw x :: us, rest)
            | None =>
                if Ascii.eqb e "u" then
                  match r1 with
                  | String h1 (String h2 (String h3 (String h4 r2))) =>
                      match hex_value h1, hex_value h2, hex_value h3, hex_value h4 with
                      | Some a, Some b, Some c', Some d =>
                          '(us, rest) ← scan_units r2;
                          Some (U16 (((a * 16 + b) * 16 + c') * 16 + d)%N :: us, rest)
                      | _, _, _, _ => None
                      end
                  | _ => None
                  end
                else None
            end
        | EmptyString => None
        end
      else if (code c <? 32)%N then None
      else '(us, rest) ← scan_units r; Some (Raw c :: us, rest)
  end.

Definition is_high_surrogate (n : N) : bool := ((55296 <=? n) && (n <? 56320))%N.
Definition is_low_surrogate (n : N) : bool := ((56320 <=? n) && (n <? 57344))%N.

(** UTF-8 of a code point below 0x110000. *)
Definition utf8 (n : N) : string :=
  let b (x : N) := ascii_of_N x in
  if (n <? 128)%N then String (b n) EmptyString
  else if (n <? 2048)%N then
    String (b (192 + n / 64)%N) (String (b (128 + n mod 64)%N) EmptyString)
  else if (n <? 65536)%N then
    String (b (224 + n / 4096)%N)
      (String (b (128 + (n / 64) mod 64)%N) (String (b (128 + n mod 64)%N) EmptyString))
  else
    String (b (240 + n / 262144)%N)
      (String (b (128 + (n / 4096) mod 64)%N)
         (String (b (128 + (n / 64) mod 64)%N) (String (b (128 + n mod 64)%N) EmptyString))).

Definition replacement_char : N := 65533%N.

(** Surrogate pairs combine; a surrogate on its own becomes U+FFFD. *)
Fixpoint string_of_units (us : list unit16) : string :=
  match us with
  | [] => EmptyString
  | Raw c :: r => String c (string_of_units r)
  | U16 hi :: r =>
      if is_high_surrogate hi then
        match r with
        | U16 lo :: r' =>
            if is_low_surrogate lo
            then utf8 (65536 + (hi - 55296) * 1024 + (lo - 56320))%N +:+ string_of_units r'
            else utf8 replacement_char +:+ string_of_units r
        | _ => utf8 replacement_char +:+ string_of_units r
        end
      else if is_low_surrogate hi then utf8 replacement_char +:+ string_of_units r
      else utf8 hi +:+ string_of_units r
  end.

Definition scan_string (s : string) : option (string * string) :=
  '(us, rest) ← scan_units s; Some (string_of_units us, rest).

(** [encoding/json] refuses input nested deeper than this. *)
Definition maxNestingDepth : N := 10000%N.

(** The value at the head of [s] (after blanks), and what follows it;
    [depth] counts the arrays and objects around it. A value is parsed with
    one unit of fuel less than the array or object it stands in, whose
    opening bracket has been consumed by then, and the loops over elements
    and members consume at least one character per round: the length of the
    input, plus one, is fuel enough. *)
Fixpoint parse_value (fuel : nat) (depth : N) (s : string) : option (json * string) :=
  match fuel with
  | O => None
  | S fuel' =>
      let parse_elements :=
        fix parse_elements (n : nat) (s : string) : option (list json * string) :=
          match n with
          | O => None
          | S n' =>
              '(v, r) ← parse_value fuel' (depth + 1)%N s;
              match skip_space r with
              | String c r' =>
                  if Ascii.eqb c "," then
                    '(vs, rest) ← parse_elements n' r'; Some (v :: vs, rest)
                  else if Ascii.eqb c "]" then Some ([v], r')
                  else None
              | EmptyString => None
              end
          end in
      let parse_members :=
        fix parse_members (n : nat) (s : string) : option (list (string * json) * string) :=
          match n with
          | O => None
          | S n' =>
              match skip_space s with
              | String q r0 =>
                  if Ascii.eqb q dquote then
                    '(k, r1) ← scan_string r0;
                    match skip_space r1 with
                    | String colon r2 =>
                        if Ascii.eqb colon ":" then
                          '(v, r3) ← parse_value fuel' (depth + 1)%N r2;
                          match skip_space r3 with
                          | String c r4 =>
                              if Ascii.eqb c "," then
                                '(ms, rest) ← parse_members n' r4; Some ((k, v) :: ms, rest)
                              else if Ascii.eqb c "}" then Some ([(k, v)], r4)
                              else None
                          | EmptyString => None
                          end
                        else None
                    | EmptyString => None
                    end
                  else None
              | EmptyString => None
              end
          end in
      match skip_space s with
      | EmptyString => None
      | String c r =>
          if Ascii.eqb c "n" then r' ← expect "ull" r; Some (JNull, r')
          else if Ascii.eqb c "t" then r' ← expect "rue" r; Some (JBool true, r')
          else if Ascii.eqb c "f" then r' ← expect "alse" r; Some (JBool false, r')
          else if Ascii.eqb c dquote then '(str, r') ← scan_string r; Some (JString str, r')
          else if Ascii.eqb c "[" then
            if (maxNestingDepth <=? depth)%N then None
            else
              match skip_space r with
              | String d r' =>
                  if Ascii.eqb d "]" then Some (JArray [], r')
                  else '(vs, rest) ← parse_elements fuel' r; Some (JArray vs, rest)
              | EmptyString => None
              end
          else if Ascii.eqb c "{" then
            if (maxNestingDepth <=? depth)%N then None
            else
              match skip_space r with
              | String d r' =>
                  if Ascii.eqb d "}" then Some (JObject [], r')
                  else '(ms, rest) ← parse_members fuel' r; Some (JObject ms, rest)
              | EmptyString => None
              end
          else if Ascii.eqb c "-" || is_digit c then
            '(lit, r') ← scan_number (String c r); Some (JNumber lit, r')
          else None
      end
  end.

(** A whole document: one value, blanks around it, nothing else. *)
Definition parse (data : string) : option json :=
  '(v, rest) ← parse_value (S (String.length data)) 0%N data;
  match skip_space rest with
  | EmptyString => Some v
  | String _ _ => None
  end.

(** Printing, as [json.Marshal] writes strings: quote, backslash and control
    characters escaped, and the characters HTML treats specially written as
    [\u00XX]. U+2028 and U+2029 are copied, where [json.Marshal] escapes
    them. *)
Definition u00 (c : ascii) : string :=
  String backslash ("u00" +:+ String (hex_digit (code c / 16)) (String (hex_digit (code c mod 16)) EmptyString)).

Definition escape_char (c : ascii) : string :=
  if Ascii.eqb c dquote then String backslash (String dquote EmptyString)
  else if Ascii.eqb c backslash then String backslash (String backslash EmptyString)
  else if Ascii.eqb c lf then String backslash "n"
  else if Ascii.eqb c cr then String backslash "r"
  else if Ascii.eqb c tab then String backslash "t"
  else if (code c <? 32)%N || Ascii.eqb c "<" || Ascii.eqb c ">" || Ascii.eqb c "&" then u00 c
  else String c EmptyString.

Fixpoint escape (s : string) : string :=
  match s with
  | EmptyString => EmptyString
  | String c r => escape_char c +:+ escape r
  end.

Definition quote (s : string) : string :=
  String dquote (escape s) +:+ String dquote EmptyString.

Fixpoint print (v : json) : string :=
  let print_elements :=
    fix print_elements (vs : list json) : string :=
      match vs with
      | [] => EmptyString
      | [x] => print x
      | x :: r => print x +:+ "," +:+ print_elements r
      end in
  let print_members :=
    fix print_members (ms : list (string * json)) : string :=
      match ms with
      | [] => EmptyString
      | [(k, x)] => quote k +:+ ":" +:+ print x
      | (k, x) :: r => quote k +:+ ":" +:+ print x +:+ "," +:+ print_members r
      end in
  match v with
  | JNull => "null"
  | JBool true => "true"
  | JBool false => "false"
  | JNumber lit => lit
  | JString str => quote str
  | JArray vs => "[" +:+ print_elements vs +:+ "]"
  | JObject ms => "{" +:+ print_members ms +:+ "}"
  end.

End JSON.

(** ** Go values: errors, results, panics *)

(** The [error] values the layer can meet. [ErrAborted] is dgo's
    [y.ErrAborted]; [StoreError] stands for every other failure of the store
    or of the transport; [Errorf] is what [fmt.Errorf] builds. *)
Inductive error : Type :=
| ErrAborted
| StoreError (msg : string)
| SyntaxError (msg : string)
| UnmarshalTypeError (value gotype : string)
| MarshalError (msg : string)
| Errorf (msg : string).

#[global] Instance error_eq_dec : EqDecision error.
Proof. solve_decision. Defined.

(** The method [Error() string]. *)
Definition Error (e : error) : string :=
  match e with
  | ErrAborted => "Transaction has been aborted. Please retry"
  | StoreError msg => msg
  | SyntaxError msg => msg
  | UnmarshalTypeError value gotype =>
      "json: cannot unmarshal " +:+ value +:+ " into Go value of type " +:+ gotype
  | MarshalError msg => msg
  | Errorf msg => msg
  end.

(** What a library call returns: a value and a nil error, or an error. *)
Inductive result (A : Type) : Type :=
| Ok (a : A)
| Err (e : error).
Arguments Ok {A} a.
Arguments Err {A} e.

(** How a call of the layer ends: it returns, or the goroutine panics. *)
Inductive outcome (A : Type) : Type :=
| Returns (a : A)
| Panics (msg : string).
Arguments Returns {A} a.
Arguments Panics {A} msg.

(** [strconv.Itoa], and the reading of an integer literal that
    [encoding/json] does for a field of type [int] (64 bits wide). *)
Definition Itoa (i : Z) : string := NilZero.string_of_int (Z.to_int i).

Definition all_digits (s : string) : bool :=
  forallb Chars.is_digit (list_ascii_of_string s).

Definition ParseInt64 (lit : string) : option Z :=
  let digits := match lit with String "-" r => r | _ => lit end in
  if JSON.nonempty digits && all_digits digits then
    i ← NilZero.int_of_string lit;
    let z := Z.of_int i in
    if ((- 2 ^ 63 <=? z) && (z <? 2 ^ 63))%Z then Some z else None
  else None.

(** ** Decoding JSON into Go types

    [json.Unmarshal] first checks the syntax of the whole input, then walks
    the value along the Go type it decodes into. A struct takes the members
    of an object in document order; a member is matched to a field by its
    tag, exactly or else without regard to case (of ASCII letters, here);
    members that match no field are skipped; [null] leaves a struct or a
    scalar as it is and empties a slice. The first fault in document order
    is the error returned. The operations drop the partly decoded value
    whenever there is an error, so a result is either a value or an
    error.

    Where this differs from [encoding/json]: keys are compared without
    regard to case for ASCII letters only, not by Unicode case folding (a
    key with the long s or the Kelvin sign matches there and not here); the
    array of a repeated key is decoded afresh, not into the elements its
    first occurrence left; the Go type in a type error is a short name, not
    its full spelling; and when a response has several faults, the error
    is the first one here, where [encoding/json] lets a later failure of a
    custom decoder take precedence over an earlier type error. The
    statements that depend on how keys match are restricted to ASCII keys,
    and those about faulty bodies do not say which error comes back. *)

Class Unmarshaler (T : Type) : Type := {
  zero : T;
  decode_into : json -> T -> result T;
}.

(** [json.Marshal] for a Go type. *)
Class Marshaler (T : Type) : Type :=
  Marshal : T -> result string.

Module Decode.

Fixpoint lower (s : string) : string :=
  match s with
  | EmptyString => EmptyString
  | String c r => String (Chars.to_lower c) (lower r)
  end.

Definition kind_of (v : json) : string :=
  match v with
  | JNull => "null"
  | JBool _ => "bool"
  | JNumber _ => "number"
  | JString _ => "string"
  | JArray _ => "array"
  | JObject _ => "object"
  end.

Definition field_for {A : Type} (fields : list (string * A)) (key : string) : option A :=
  match List.find (fun f => String.eqb (fst f) key) fields with
  | Some f => Some (snd f)
  | None =>
      match List.find (fun f => String.eqb (lower (fst f)) (lower key)) fields with
      | Some f => Some (snd f)
      | None => None
      end
  end.

Definition member_into {T : Type} (fields : list (string * (json -> T -> result T)))
    (acc : result T) (m : string * json) : result T :=
  match acc with
  | Err e => Err e
  | Ok t =>
      match field_for fields (fst m) with
      | Some set => set (snd m) t
      | None => Ok t
      end
  end.

Definition struct {T : Type} (gotype : string)
    (fields : list (string * (json -> T -> result T))) (v : json) (t : T) : result T :=
  match v with
  | JNull => Ok t
  | JObject ms => fold_left (member_into fields) ms (Ok t)
  | _ => Err (UnmarshalTypeError (kind_of v) gotype)
  end.

Fixpoint elements {T : Type} `{Unmarshaler T} (vs : list json) : result (list T) :=
  match vs with
  | [] => Ok []
  | v :: r =>
      match decode_into v zero with
      | Err e => Err e
      | Ok x =>
          match elements r with
          | Err e => Err e
          | Ok xs => Ok (x :: xs)
          end
      end
  end.

(** A field of type [T] of a struct [R]: decode into the field's current
    value and store the result. *)
Definition field {R T : Type} `{Unmarshaler T} (get : R -> T) (set : T -> R -> R)
    (v : json) (r : R) : result R :=
  match decode_into v (get r) with
  | Ok x => Ok (set x r)
  | Err e => Err e
  end.

End Decode.

#[global] Instance string_Unmarshaler : Unmarshaler string := {|
  zero := EmptyString;
  decode_into v s :=
    match v with
    | JString x => Ok x
    | JNull => Ok s
    | _ => Err (UnmarshalTypeError (Decode.kind_of v) "string")
    end
|}.

#[global] Instance int_Unmarshaler : Unmarshaler Z := {|
  zero := 0%Z;
  decode_into v n :=
    match v with
    | JNumber lit =>
        match ParseInt64 lit with
        | Some z => Ok z
        | None => Err (UnmarshalTypeError ("number " +:+ lit) "int")
        end
    | JNull => Ok n
    | _ => Err (UnmarshalTypeError (Decode.kind_of v) "int")
    end
|}.

#[global] Instance bool_Unmarshaler : Unmarshaler bool := {|
  zero := false;
  decode_into v b :=
    match v with
    | JBool x => Ok x
    | JNull => Ok b
    | _ => Err (UnmarshalTypeError (Decode.kind_of v) "bool")
    end
|}.

#[global] Instance slice_Unmarshaler (T : Type) `{Unmarshaler T} : Unmarshaler (list T) := {|
  zero := [];
  decode_into v l :=
    match v with
    | JArray vs => Decode.elements vs
    | JNull => Ok []
    | _ => Err (UnmarshalTypeError (Decode.kind_of v) "slice")
    end
|}.

(** [json.Unmarshal(data, &t)]. *)
Definition Unmarshal {T : Type} `{Unmarshaler T} (data : string) (t : T) : result T :=
  match JSON.parse data with
  | None => Err (SyntaxError "invalid character in JSON input")
  | Some v => decode_into v t
  end.

(** The local type [Root] of each lookup: a struct with one field, a slice
    of [T], tagged [tag]. The field is called [FindScrape],
    [FindScrapeNoID], [FindEvent], [FindLocation] or [NodeCount] in the
    source; here it is [slice]. *)
Record Root (tag : string) (T : Type) : Type := { slice : list T }.
Arguments slice {tag T} r.
Arguments Build_Root {tag T} slice.

#[global] Instance Root_Unmarshaler (tag : string) (T : Type) `{Unmarshaler T} :
  Unmarshaler (Root tag T) := {|
  zero := Build_Root [];
  decode_into :=
    Decode.struct "Root" [(tag, Decode.field slice (fun l _ => Build_Root l))]
|}.

(** The element type of [CountNodesWithField]'s [Root]:
    [struct { NodeCount int `json:"nodeCount"` }]. *)
Module NodeCount.
Record t : Type := { NodeCount : Z }.
End NodeCount.

#[global] Instance NodeCount_Unmarshaler : Unmarshaler NodeCount.t := {|
  zero := {| NodeCount.NodeCount := 0%Z |};
  decode_into :=
    Decode.struct "struct"
      [("nodeCount", Decode.field NodeCount.NodeCount (fun n _ => {| NodeCount.NodeCount := n |}))]
|}.

(** ** Records

    The struct declarations belong to the schema file of the package; the
    operations read only the fields [UID] and [ID] of a scrape and of an
    event, and hand whole records to [encoding/json]. *)

(** Modelled from the spec: a location has an internal reference id, an
    external string id (Kent's slug), a display name and an accessibility
    flag. *)
Module Location.
Record t : Type := {
  UID : string;
  ID : string;
  Name : string;
  DisabledAccess : bool;
}.
End Location.

(** Modelled from the spec: the person who organises an event, by internal
    id and display name. *)
Module Person.
Record t : Type := {
  UID : string;
  Name : string;
}.
End Person.

(** Modelled from the spec: the module an event belongs to, by internal id
    and module code. *)
Module CourseModule.
Record t : Type := {
  UID : string;
  Code : string;
}.
End CourseModule.

(** Modelled from the spec: an event has an internal reference id, an
    external string id, a title, a description, start and end timestamps
    (kept as their RFC 3339 text), and refers to a person, a module and a
    location (a nil reference is [None]). *)
Module Event.
Record t : Type := {
  UID : string;
  ID : string;
  Title : string;
  Description : string;
  StartDate : string;
  EndDate : string;
  Organiser : option Person.t;
  PartOfModule : option CourseModule.t;
  OccursAt : option Location.t;
}.
End Event.

(** Modelled from the spec: a scrape has an internal reference id (empty
    until the store mints one), an external numeric id, the timestamp of the
    last scrape, and the events it found. *)
Module Scrape.
Record t : Type := {
  UID : string;
  ID : Z;
  LastScraped : string;
  FoundEvent : list Event.t;
}.
End Scrape.

(** ** The Dgraph client (dgo)

    [api.Mutation] and [api.Response], with the fields the layer sets or
    reads. *)
Record Mutation : Type := {
  SetJson : string;
  DeleteJson : string;
  CommitNow : bool;
}.

Record Response : Type := {
  Json : string;
  Uids : gmap string string;
}.

(** A call on a transaction. [readOnly] is the flag of the transaction the
    call is made on; [txn.Query(ctx, q)] is [QueryWithVars] with no
    variables. *)
Inductive Call : Type :=
| QueryCall (readOnly : bool) (q : string) (vars : option (gmap string string))
| MutateCall (readOnly : bool) (mu : Mutation).

(** The client is a black box over a store of states [S]: it answers a call
    with a response or an error, and leaves the store in a new state. A
    client is a non-nil [*dgo.Dgraph] that keeps dgo's contract: a nil error
    comes with a non-nil response. A nil client, and a nil response with a
    nil error, have no term here; the source dereferences both unchecked. *)
Record Dgraph (S : Type) : Type := {
  serve : Call -> S -> result Response * S;
}.
Arguments serve {S} d call s.

(** The store, and the calls made on it so far (oldest first). The list of
    calls is there for the statements only: no operation reads it. *)
Record World (S : Type) : Type := {
  store : S;
  calls : list Call;
}.
Arguments store {S} w.
Arguments calls {S} w.
Arguments Build_World {S} store calls.

Record Txn (S : Type) : Type := {
  dg : Dgraph S;
  readOnly : bool;
}.
Arguments dg {S} t.
Arguments readOnly {S} t.
Arguments Build_Txn {S} dg readOnly.

(** A computation of the layer: from a world to an outcome and a world. *)
Definition Go (S A : Type) : Type := World S -> outcome A * World S.

#[global] Instance Go_ret {S : Type} : MRet (Go S) :=
  fun A a w => (Returns a, w).

#[global] Instance Go_bind {S : Type} : MBind (Go S) :=
  fun A B f m w =>
    match m w with
    | (Returns a, w') => f a w'
    | (Panics msg, w') => (Panics msg, w')
    end.

(** ** The queries, as the source writes them *)

Definition FindScrape_query : string :=
"query FindScrape($uid: string) {
			findScrape(func: uid($uid)) {
				uid
				scrape.id
				scrape.last_scraped
				scrape.found_event {
					uid
					event.id
					event.title
				}
			}
		}
	".

Definition FindScrapeNoID_query : string :=
"query FindScrapeNoID($id: int) {
			findScrapeNoID(func: eq(scrape.id, $id)) {
				uid
				scrape.id
				scrape.last_scraped
				scrape.found_event {
					uid
					event.id
					event.title
				}
			}
		}
	".

Definition FindEvent_query : string :=
"query FindEvent($id: string) {
			findEvent(func: uid($id)) {
				uid
				event.id
				event.title
				event.description
				event.start_date
				event.end_date
				event.organiser {
					uid
					person.name
				}
				event.part_of_module {
					uid
					module.code
				}
				event.location {
					uid
					location.id
					location.name
				}
			}
		}
	".

Definition FindEventNoUID_query : string :=
"query FindEventNoUID($id: string) {
			findEvent(func: eq(event.id, $id)) {
				uid
				event.id
				event.title
				event.description
				event.start_date
				event.end_date
				event.organiser {
					uid
					person.name
				}
				event.part_of_module {
					uid
					module.code
				}
				event.location {
					uid
					location.id
					location.name
				}
			}
		}
	".

Definition FindLocationFromSlug_query : string :=
"query FindLocationFromSlug($id: string) {
			findLocation(func: eq(location.id, $id)) {
				uid
				location.id
				location.name
				location.disabled_access
			}
		}
	".

Definition Count_query : string :=
"query Count {
			nodeCount(func: has(location.id)) {
				nodeCount: count(uid)
			}
		}
		".

(** ** The operations *)

Section Operations.

Context {S : Type}.
Context `{Unmarshaler Scrape.t, Unmarshaler Event.t, Unmarshaler Location.t}.
Context `{Marshaler Scrape.t, Marshaler Event.t, Marshaler Location.t}.

Definition NewTxn (c : Dgraph S) : Txn S := Build_Txn c false.

Definition NewReadOnlyTxn (c : Dgraph S) : Txn S := Build_Txn c true.

(** Makes [call] on the client and records it. *)
Definition perform (c : Dgraph S) (call : Call) : Go S (result Response) :=
  fun w =>
    let '(res, s') := serve c call (store w) in
    (Returns res, Build_World s' (calls w ++ [call])).

Definition QueryWithVars (txn : Txn S) (q : string) (vars : gmap string string) :
    Go S (result Response) :=
  perform (dg txn) (QueryCall (readOnly txn) q (Some vars)).

Definition Query (txn : Txn S) (q : string) : Go S (result Response) :=
  perform (dg txn) (QueryCall (readOnly txn) q None).

Definition Mutate (txn : Txn S) (mu : Mutation) : Go S (result Response) :=
  perform (dg txn) (MutateCall (readOnly txn) mu).

(** [l[i]]: the element, or the run-time panic of an index out of range. *)
Definition index {T : Type} (l : list T) (i : nat) : Go S T :=
  fun w =>
    match l !! i with
    | Some x => (Returns x, w)
    | None =>
        (Panics ("runtime error: index out of range [" +:+ Itoa (Z.of_nat i)
                 +:+ "] with length " +:+ Itoa (Z.of_nat (length l))), w)
    end.

Definition getScrapeWithID (c : Dgraph S) (scrape : Scrape.t) :
    Go S (option Scrape.t * option error) :=
  let txn := NewReadOnlyTxn c in
  let q := FindScrape_query in
  let variables : gmap string string := ∅ in
  let variables := <["$uid" := Scrape.UID scrape]> variables in
  res ← QueryWithVars txn q variables;
  match res with
  | Err err => mret (None, Some err)
  | Ok resp =>
      match Unmarshal (Json resp) (zero : Root "findScrape" Scrape.t) with
      | Err err => mret (None, Some err)
      | Ok r =>
          if (length (slice r) =? 0)%nat then
            mret (None, Some (Errorf ("No Scrape found with id " +:+ Scrape.UID scrape)))
          else
            x ← index (slice r) 0;
            mret (Some x, None)
      end
  end.

Definition getScrapeWithoutID (c : Dgraph S) (scrape : Scrape.t) :
    Go S (option Scrape.t * option error) :=
  let txn := NewReadOnlyTxn c in
  let q := FindScrapeNoID_query in
  let variables : gmap string string := ∅ in
  let variables := <["$id" := Itoa (Scrape.ID scrape)]> variables in
  res ← QueryWithVars txn q variables;
  match res with
  | Err err => mret (None, Some err)
  | Ok resp =>
      match Unmarshal (Json resp) (zero : Root "findScrapeNoID" Scrape.t) with
      | Err err => mret (None, Some err)
      | Ok r =>
          if (length (slice r) =? 0)%nat then mret (None, None)
          else
            x ← index (slice r) 0;
            mret (Some x, None)
      end
  end.

Definition GetScrape (c : Dgraph S) (scrape : Scrape.t) :
    Go S (option Scrape.t * option error) :=
  if negb (String.eqb (Scrape.UID scrape) EmptyString) then getScrapeWithID c scrape
  else getScrapeWithoutID c scrape.

Definition UpsertScrape (c : Dgraph S) (scrape : Scrape.t) :
    Go S (option Response * option error) :=
  let mu := {| SetJson := EmptyString; DeleteJson := EmptyString; CommitNow := true |} in
  match Marshal scrape with
  | Err err => mret (None, Some err)
  | Ok pb =>
      let mu := {| SetJson := pb; DeleteJson := DeleteJson mu; CommitNow := CommitNow mu |} in
      res ← Mutate (NewTxn c) mu;
      match res with
      | Err err => mret (None, Some err)
      | Ok assigned => mret (Some assigned, None)
      end
  end.

Definition getEventWithUID (c : Dgraph S) (event : Event.t) :
    Go S (option Event.t * option error) :=
  let txn := NewReadOnlyTxn c in
  let q := FindEvent_query in
  let variables : gmap string string := ∅ in
  let variables := <["$id" := Event.UID event]> variables in
  res ← QueryWithVars txn q variables;
  match res with
  | Err err => mret (None, Some err)
  | Ok resp =>
      match Unmarshal (Json resp) (zero : Root "findEvent" Event.t) with
      | Err err => mret (None, Some err)
      | Ok r =>
          if (length (slice r) =? 0)%nat then
            mret (None, Some (Errorf ("No Event found with uid " +:+ Event.UID event)))
          else
            x ← index (slice r) 0;
            mret (Some x, None)
      end
  end.

Definition getEventWithoutUID (c : Dgraph S) (event : Event.t) :
    Go S (option Event.t * option error) :=
  let txn := NewReadOnlyTxn c in
  let q := FindEventNoUID_query in
  let variables : gmap string string := ∅ in
  let variables := <["$id" := Event.ID event]> variables in
  res ← QueryWithVars txn q variables;
  match res with
  | Err err => mret (None, Some err)
  | Ok resp =>
      match Unmarshal (Json resp) (zero : Root "findEvent" Event.t) with
      | Err err => mret (None, Some err)
      | Ok r =>
          if (length (slice r) =? 0)%nat then mret (None, None)
          else
            x ← index (slice r) 0;
            mret (Some x, None)
      end
  end.

Definition GetEvent (c : Dgraph S) (event : Event.t) :
    Go S (option Event.t * option error) :=
  if negb (String.eqb (Event.UID event) EmptyString) then getEventWithUID c event
  else getEventWithoutUID c event.

(** The comparison with [y.ErrAborted] guards an empty block. *)
Definition UpsertEvent (c : Dgraph S) (event : Event.t) :
    Go S (option Response * option error) :=
  let mu := {| SetJson := EmptyString; DeleteJson := EmptyString; CommitNow := true |} in
  match Marshal event with
  | Err jsonErr => mret (None, Some jsonErr)
  | Ok pb =>
      let mu := {| SetJson := pb; DeleteJson := DeleteJson mu; CommitNow := CommitNow mu |} in
      res ← Mutate (NewTxn c) mu;
      match res with
      | Err upsertErr =>
          let _ := if decide (upsertErr = ErrAborted) then tt else tt in
          mret (None, Some upsertErr)
      | Ok assigned => mret (Some assigned, None)
      end
  end.

Definition GetLocationFromKentSlug (c : Dgraph S) (slug : string) :
    Go S (option Location.t * option error) :=
  let txn := NewReadOnlyTxn c in
  let q := FindLocationFromSlug_query in
  let variables : gmap string string := ∅ in
  let variables := <["$id" := slug]> variables in
  res ← QueryWithVars txn q variables;
  match res with
  | Err err => mret (None, Some err)
  | Ok resp =>
      match Unmarshal (Json resp) (zero : Root "findLocation" Location.t) with
      | Err err => mret (None, Some err)
      | Ok r =>
          if (length (slice r) =? 0)%nat then mret (None, None)
          else
            x ← index (slice r) 0;
            mret (Some x, None)
      end
  end.

Definition UpsertLocation (c : Dgraph S) (loc : Location.t) :
    Go S (option Response * option error) :=
  let mu := {| SetJson := EmptyString; DeleteJson := EmptyString; CommitNow := true |} in
  match Marshal loc with
  | Err err => mret (None, Some err)
  | Ok pb =>
      let mu := {| SetJson := pb; DeleteJson := DeleteJson mu; CommitNow := CommitNow mu |} in
      res ← Mutate (NewTxn c) mu;
      match res with
      | Err err => mret (None, Some err)
      | Ok assigned => mret (Some assigned, None)
      end
  end.

(** The field name [f] is not used: the query names [location.id]. *)
Definition CountNodesWithField (c : Dgraph S) (f : string) :
    Go S (option Z * option error) :=
  let txn := NewReadOnlyTxn c in
  let q := Count_query in
  res ← Query txn q;
  match res with
  | Err err => mret (None, Some err)
  | Ok resp =>
      match Unmarshal (Json resp) (zero : Root "nodeCount" NodeCount.t) with
      | Err err => mret (None, Some err)
      | Ok r =>
          x ← index (slice r) 0;
          mret (Some (NodeCount.NodeCount x), None)
      end
  end.

End Operations.

(** ** Sample codecs

    Modelled from the spec: the field tags of the records, which the schema
    declares, are dot-namespaced by type ([event.title], [location.id]);
    the queries project the same names. Here every field is optional on
    encoding, and timestamps travel as strings. The theorems below hold for
    any codecs; these are the ones the examples run with. *)

Module Sample.

#[export] Instance pointer_Unmarshaler (T : Type) `{Unmarshaler T} : Unmarshaler (option T) := {|
  zero := None;
  decode_into v p :=
    match v with
    | JNull => Ok None
    | _ =>
        match decode_into v (default zero p) with
        | Ok x => Ok (Some x)
        | Err e => Err e
        end
    end
|}.

#[export] Instance Location_Unmarshaler : Unmarshaler Location.t := {|
  zero := Location.Build_t EmptyString EmptyString EmptyString false;
  decode_into :=
    Decode.struct "Location"
      [("uid", Decode.field Location.UID
          (fun x l => Location.Build_t x (Location.ID l) (Location.Name l) (Location.DisabledAccess l)));
       ("location.id", Decode.field Location.ID
          (fun x l => Location.Build_t (Location.UID l) x (Location.Name l) (Location.DisabledAccess l)));
       ("location.name", Decode.field Location.Name
          (fun x l => Location.Build_t (Location.UID l) (Location.ID l) x (Location.DisabledAccess l)));
       ("location.disabled_access", Decode.field Location.DisabledAccess
          (fun x l => Location.Build_t (Location.UID l) (Location.ID l) (Location.Name l) x))]
|}.

#[export] Instance Person_Unmarshaler : Unmarshaler Person.t := {|
  zero := Person.Build_t EmptyString EmptyString;
  decode_into :=
    Decode.struct "Person"
      [("uid", Decode.field Person.UID (fun x p => Person.Build_t x (Person.Name p)));
       ("person.name", Decode.field Person.Name (fun x p => Person.Build_t (Person.UID p) x))]
|}.

#[export] Instance CourseModule_Unmarshaler : Unmarshaler CourseModule.t := {|
  zero := CourseModule.Build_t EmptyString EmptyString;
  decode_into :=
    Decode.struct "Module"
      [("uid", Decode.field CourseModule.UID (fun x m => CourseModule.Build_t x (CourseModule.Code m)));
       ("module.code", Decode.field CourseModule.Code (fun x m => CourseModule.Build_t (CourseModule.UID m) x))]
|}.

#[export] Instance Event_Unmarshaler : Unmarshaler Event.t := {|
  zero := Event.Build_t EmptyString EmptyString EmptyString EmptyString EmptyString EmptyString
            None None None;
  decode_into :=
    Decode.struct "Event"
      [("uid", Decode.field Event.UID
          (fun x e => Event.Build_t x (Event.ID e) (Event.Title e) (Event.Description e)
             (Event.StartDate e) (Event.EndDate e) (Event.Organiser e) (Event.PartOfModule e)
             (Event.OccursAt e)));
       ("event.id", Decode.field Event.ID
          (fun x e => Event.Build_t (Event.UID e) x (Event.Title e) (Event.Description e)
             (Event.StartDate e) (Event.EndDate e) (Event.Organiser e) (Event.PartOfModule e)
             (Event.OccursAt e)));
       ("event.title", Decode.field Event.Title
          (fun x e => Event.Build_t (Event.UID e) (Event.ID e) x (Event.Description e)
             (Event.StartDate e) (Event.EndDate e) (Event.Organiser e) (Event.PartOfModule e)
             (Event.OccursAt e)));
       ("event.description", Decode.field Event.Description
          (fun x e => Event.Build_t (Event.UID e) (Event.ID e) (Event.Title e) x
             (Event.StartDate e) (Event.EndDate e) (Event.Organiser e) (Event.PartOfModule e)
             (Event.OccursAt e)));
       ("event.start_date", Decode.field Event.StartDate
          (fun x e => Event.Build_t (Event.UID e) (Event.ID e) (Event.Title e) (Event.Description e)
             x (Event.EndDate e) (Event.Organiser e) (Event.PartOfModule e) (Event.OccursAt e)));
       ("event.end_date", Decode.field Event.EndDate
          (fun x e => Event.Build_t (Event.UID e) (Event.ID e) (Event.Title e) (Event.Description e)
             (Event.StartDate e) x (Event.Organiser e) (Event.PartOfModule e) (Event.OccursAt e)));
       ("event.organiser", Decode.field Event.Organiser
          (fun x e => Event.Build_t (Event.UID e) (Event.ID e) (Event.Title e) (Event.Description e)
             (Event.StartDate e) (Event.EndDate e) x (Event.PartOfModule e) (Event.OccursAt e)));
       ("event.part_of_module", Decode.field Event.PartOfModule
          (fun x e => Event.Build_t (Event.UID e) (Event.ID e) (Event.Title e) (Event.Description e)
             (Event.StartDate e) (Event.EndDate e) (Event.Organiser e) x (Event.OccursAt e)));
       ("event.location", Decode.field Event.OccursAt
          (fun x e => Event.Build_t (Event.UID e) (Event.ID e) (Event.Title e) (Event.Description e)
             (Event.StartDate e) (Event.EndDate e) (Event.Organiser e) (Event.PartOfModule e) x))]
|}.

#[export] Instance Scrape_Unmarshaler : Unmarshaler Scrape.t := {|
  zero := Scrape.Build_t EmptyString 0%Z EmptyString [];
  decode_into :=
    Decode.struct "Scrape"
      [("uid", Decode.field Scrape.UID
          (fun x s => Scrape.Build_t x (Scrape.ID s) (Scrape.LastScraped s) (Scrape.FoundEvent s)));
       ("scrape.id", Decode.field Scrape.ID
          (fun x s => Scrape.Build_t (Scrape.UID s) x (Scrape.LastScraped s) (Scrape.FoundEvent s)));
       ("scrape.last_scraped", Decode.field Scrape.LastScraped
          (fun x s => Scrape.Build_t (Scrape.UID s) (Scrape.ID s) x (Scrape.FoundEvent s)));
       ("scrape.found_event", Decode.field Scrape.FoundEvent
          (fun x s => Scrape.Build_t (Scrape.UID s) (Scrape.ID s) (Scrape.LastScraped s) x))]
|}.

(** Members, the empty ones left out. *)
Definition str (k v : string) : list (string * json) :=
  if JSON.nonempty v then [(k, JString v)] else [].

Definition int (k : string) (v : Z) : list (string * json) :=
  if (v =? 0)%Z then [] else [(k, JNumber (Itoa v))].

Definition flag (k : string) (v : bool) : list (string * json) :=
  if v then [(k, JBool true)] else [].

Definition ref {T : Type} (k : string) (enc : T -> json) (v : option T) : list (string * json) :=
  match v with
  | Some x => [(k, enc x)]
  | None => []
  end.

Definition arr {T : Type} (k : string) (enc : T -> json) (v : list T) : list (string * json) :=
  match v with
  | [] => []
  | _ => [(k, JArray (List.map enc v))]
  end.

Definition Location_json (l : Location.t) : json :=
  JObject (str "uid" (Location.UID l) ++ str "location.id" (Location.ID l)
           ++ str "location.name" (Location.Name l)
           ++ flag "location.disabled_access" (Location.DisabledAccess l)).

Definition Person_json (p : Person.t) : json :=
  JObject (str "uid" (Person.UID p) ++ str "person.name" (Person.Name p)).

Definition CourseModule_json (m : CourseModule.t) : json :=
  JObject (str "uid" (CourseModule.UID m) ++ str "module.code" (CourseModule.Code m)).

Definition Event_json (e : Event.t) : json :=
  JObject (str "uid" (Event.UID e) ++ str "event.id" (Event.ID e)
           ++ str "event.title" (Event.Title e)
           ++ str "event.description" (Event.Description e)
           ++ str "event.start_date" (Event.StartDate e)
           ++ str "event.end_date" (Event.EndDate e)
           ++ ref "event.organiser" Person_json (Event.Organiser e)
           ++ ref "event.part_of_module" CourseModule_json (Event.PartOfModule e)
           ++ ref "event.location" Location_json (Event.OccursAt e)).

Definition Scrape_json (s : Scrape.t) : json :=
  JObject (str "uid" (Scrape.UID s) ++ int "scrape.id" (Scrape.ID s)
           ++ str "scrape.last_scraped" (Scrape.LastScraped s)
           ++ arr "scrape.found_event" Event_json (Scrape.FoundEvent s)).

#[export] Instance Location_Marshaler : Marshaler Location.t :=
  fun l => Ok (JSON.print (Location_json l)).

#[export] Instance Event_Marshaler : Marshaler Event.t :=
  fun e => Ok (JSON.print (Event_json e)).

#[export] Instance Scrape_Marshaler : Marshaler Scrape.t :=
  fun s => Ok (JSON.print (Scrape_json s)).

End Sample.

(** ** Text search *)

Module Text.

(** [split_at pat s]: what stands before and after the first [pat] in [s]. *)
Fixpoint split_at (pat s : string) : option (string * string) :=
  match JSON.expect pat s with
  | Some r => Some (EmptyString, r)
  | None =>
      match s with
      | String c r =>
          match split_at pat r with
          | Some (pre, post) => Some (String c pre, post)
          | None => None
          end
      | EmptyString => None
      end
  end.

Definition contains (pat s : string) : bool :=
  match split_at pat s with Some _ => true | None => false end.

Fixpoint last_word_from (cur s : string) : string :=
  match s with
  | EmptyString => cur
  | String c r =>
      if Chars.is_space c then last_word_from EmptyString r
      else last_word_from (cur +:+ String c EmptyString) r
  end.

(** The last blank-separated word of [s]. *)
Definition last_word (s : string) : string :=
  last_word_from EmptyString s.

End Text.

(** ** A store in memory

    A small client to run the operations against: nodes are kept as the
    members of the JSON object they were set from, a set-mutation without
    [uid] adds a node under a fresh id, one with a [uid] overwrites the
    fields it names, and the root functions [uid], [eq] and [has] of a query
    are understood, with [count(uid)] as the only aggregate. Projections
    are not applied: a node is returned with all its fields. *)

Module MemStore.

Import Text.

Definition node : Type := list (string * json).

Record t : Type := {
  nodes : list node;
  minted : N;
}.

Definition empty : t := {| nodes := []; minted := 0%N |}.

Definition get (k : string) (n : node) : option json :=
  match List.find (fun m => String.eqb (fst m) k) n with
  | Some m => Some (snd m)
  | None => None
  end.

Definition has (k : string) (n : node) : bool :=
  match get k n with Some _ => true | None => false end.

Definition uid_is (u : string) (n : node) : bool :=
  match get "uid" n with
  | Some (JString x) => String.eqb x u
  | _ => false
  end.

Definition value_is (k v : string) (n : node) : bool :=
  match get k n with
  | Some (JString x) => String.eqb x v
  | Some (JNumber lit) => String.eqb lit v
  | _ => false
  end.

Definition variable (vars : option (gmap string string)) (name : string) : string :=
  match vars with
  | Some m => default EmptyString (m !! name)
  | None => EmptyString
  end.

(** The nodes selected by the root function of a query, written as
    [uid($v], [eq(field, $v] or [has(field] (the text up to the closing
    bracket). *)
Definition select (vars : option (gmap string string)) (fn : string) (ns : list node) :
    option (list node) :=
  match split_at "(" fn with
  | Some (name, args) =>
      if String.eqb name "uid" then Some (List.filter (uid_is (variable vars args)) ns)
      else if String.eqb name "has" then Some (List.filter (has args) ns)
      else if String.eqb name "eq" then
        match split_at ", " args with
        | Some (k, v) => Some (List.filter (value_is k (variable vars v)) ns)
        | None => None
        end
      else None
  | None => None
  end.

Definition answer (vars : option (gmap string string)) (q : string) (ns : list node) :
    option json :=
  '(pre, post) ← split_at "(func: " q;
  '(fn, body) ← split_at ")" post;
  rows ← select vars fn ns;
  match split_at ": count(uid)" body with
  | Some (alias, _) =>
      Some (JObject [(last_word pre,
                      JArray [JObject [(last_word alias,
                                        JNumber (Itoa (Z.of_nat (length rows))))]])])
  | None => Some (JObject [(last_word pre, JArray (List.map JObject rows))])
  end.

Definition fresh_uid (n : N) : string :=
  "0x" +:+ HexadecimalString.NilZero.string_of_uint (N.to_hex_uint n).

(** Field-level merge: the members of [ms] replace those of the same name. *)
Definition merge (ms : node) (n : node) : node :=
  (List.filter (fun m => negb (has (fst m) ms)) n ++ ms)%list.

Definition set (ms : node) (st : t) : Response * t :=
  match get "uid" ms with
  | Some (JString u) =>
      ({| Json := EmptyString; Uids := ∅ |},
       {| nodes := List.map (fun n => if uid_is u n then merge ms n else n) (nodes st);
          minted := minted st |})
  | _ =>
      let u := fresh_uid (minted st + 1) in
      ({| Json := EmptyString; Uids := {[ "blank-0" := u ]} |},
       {| nodes := (nodes st ++ [("uid", JString u) :: ms])%list;
          minted := (minted st + 1)%N |})
  end.

Definition handle (call : Call) (st : t) : result Response * t :=
  match call with
  | QueryCall _ q vars =>
      match answer vars q (nodes st) with
      | Some v => (Ok {| Json := JSON.print v; Uids := ∅ |}, st)
      | None => (Err (StoreError "while parsing the query"), st)
      end
  | MutateCall true _ => (Err (StoreError "readonly transaction cannot run mutations"), st)
  | MutateCall false mu =>
      match JSON.parse (SetJson mu) with
      | Some (JObject ms) => let '(resp, st') := set ms st in (Ok resp, st')
      | _ => (Err (StoreError "while parsing the mutation"), st)
      end
  end.

Definition client : Dgraph t := {| serve := handle |}.

Definition world (st : t) : World t := {| store := st; calls := [] |}.

End MemStore.

(** A client that answers every call with [res] and has no state. *)
Definition scripted (res : result Response) : Dgraph unit :=
  {| serve := fun _ s => (res, s) |}.

(** ** Example data *)

Module Examples.

Import Sample.

Definition grimond : Location.t :=
  Location.Build_t EmptyString "canterbury-GS1" "Grimond Seminar 1" true.

Definition lecture : Event.t :=
  Event.Build_t EmptyString "E42" "Lecture" EmptyString "2019-10-01T09:00:00Z" EmptyString
    None None (Some grimond).

Definition monday : Scrape.t :=
  Scrape.Build_t EmptyString 7%Z EmptyString [lecture].

(** The same records as the store returns them, with their internal ids. *)
Definition stored_grimond : Location.t :=
  Location.Build_t "0x1" "canterbury-GS1" "Grimond Seminar 1" true.

Definition stored_lecture : Event.t :=
  Event.Build_t "0x2" "E42" "Lecture" EmptyString "2019-10-01T09:00:00Z" EmptyString
    None None (Some grimond).

Definition stored_monday : Scrape.t :=
  Scrape.Build_t "0x3" 7%Z EmptyString [lecture].

Definition unknown_scrape : Scrape.t :=
  Scrape.Build_t "0x9" 7%Z EmptyString [].

Definition unknown_event : Event.t :=
  Event.Build_t "0x9" "E42" EmptyString EmptyString EmptyString EmptyString None None None.

Definition blank_scrape : Scrape.t :=
  Scrape.Build_t EmptyString 0%Z EmptyString [].

Definition blank_event : Event.t :=
  Event.Build_t EmptyString EmptyString EmptyString EmptyString EmptyString EmptyString
    None None None.

Definition blank_location : Location.t :=
  Location.Build_t EmptyString EmptyString EmptyString false.

Definition fresh : World MemStore.t := MemStore.world MemStore.empty.

(** A store holding one event and nothing else. *)
Definition one_event : World MemStore.t :=
  snd (UpsertEvent MemStore.client lecture fresh).

(** A store holding a location, an event and a scrape, set in that order. *)
Definition populated : World MemStore.t :=
  snd (UpsertScrape MemStore.client monday
         (snd (UpsertEvent MemStore.client lecture
                 (snd (UpsertLocation MemStore.client grimond fresh))))).

(** The response whose body is the JSON value [v]. *)
Definition body (v : json) : Response :=
  {| Json := JSON.print v; Uids := ∅ |}.

Definition nowhere : World unit := {| store := tt; calls := [] |}.

(** What the store in memory answers to [call] in [w], and the rows its
    body decodes to. *)
Definition answer_to (call : Call) (w : World MemStore.t) : Response :=
  match fst (serve MemStore.client call (store w)) with
  | Ok resp => resp
  | Err _ => body JNull
  end.

Definition rows_of (tag : string) {T : Type} `{Unmarshaler T} (resp : Response) : Root tag T :=
  match Unmarshal (Json resp) (zero : Root tag T) with
  | Ok r => r
  | Err _ => zero
  end.

(** A scrape that holds the internal id of the stored scrape and an
    external id that no scrape has. *)
Definition both_ids : Scrape.t :=
  Scrape.Build_t "0x3" 99%Z EmptyString [].

Definition both_ids_event : Event.t :=
  Event.Build_t "0x2" "E99" EmptyString EmptyString EmptyString EmptyString None None None.

Definition aborting : Dgraph unit := scripted (Err ErrAborted).

Definition unreachable : Dgraph unit := scripted (Err (StoreError "connection refused")).

Definition truncated : Response := {| Json := "{"; Uids := ∅ |}.

(** Bodies that are JSON of the wrong type: an array where the object
    should be, and a number where the list of rows should be. *)
Definition bare_array : Response := {| Json := "[]"; Uids := ∅ |}.

Definition rows_as_number (tag : string) : Response :=
  body (JObject [("extensions", JObject []); (tag, JNumber "3")]).

(** Records without an internal id that differ from the blank ones in
    the fields that are not ids. *)
Definition dated_blank_scrape : Scrape.t :=
  Scrape.Build_t EmptyString 0%Z "2019-10-01T09:00:00Z" [lecture].

Definition titled_blank_event : Event.t :=
  Event.Build_t EmptyString EmptyString "Untitled" EmptyString EmptyString EmptyString
    None None (Some grimond).

(** A second scrape, event and location with the external ids of the
    first ones, and the store that holds them as well. *)
Definition tuesday : Scrape.t :=
  Scrape.Build_t EmptyString 7%Z "2019-10-02T03:00:00Z" [].

Definition seminar : Event.t :=
  Event.Build_t EmptyString "E42" "Seminar" EmptyString EmptyString EmptyString
    None None None.

Definition annex : Location.t :=
  Location.Build_t EmptyString "canterbury-GS1" "Grimond Annex" false.

Definition stored_tuesday : Scrape.t :=
  Scrape.Build_t "0x4" 7%Z "2019-10-02T03:00:00Z" [].

Definition stored_seminar : Event.t :=
  Event.Build_t "0x5" "E42" "Seminar" EmptyString EmptyString EmptyString
    None None None.

Definition stored_annex : Location.t :=
  Location.Build_t "0x6" "canterbury-GS1" "Grimond Annex" false.

Definition crowded : World MemStore.t :=
  snd (UpsertLocation MemStore.client annex
         (snd (UpsertEvent MemStore.client seminar
                 (snd (UpsertScrape MemStore.client tuesday populated))))).

(** A body with two rows under [tag]. *)
Definition two_rows (tag : string) (first second : json) : Response :=
  body (JObject [(tag, JArray [first; second])]).

Definition two_scrapes : Response :=
  two_rows "findScrape" (Scrape_json stored_monday) (Scrape_json stored_tuesday).

Definition two_events : Response :=
  two_rows "findEvent" (Event_json stored_lecture) (Event_json stored_seminar).

(** An object that holds other keys than the expected one. *)
Definition other_keys : Response :=
  body (JObject [("data", JArray []); ("extensions", JObject [])]).

Definition quoted (s : string) : string :=
  String Chars.dquote s +:+ String Chars.dquote EmptyString.

(** Three bodies a count query could be answered with: an object without
    the key, an empty list of aggregates, and an aggregate without its
    count. *)
Definition no_key : Response := {| Json := "{}"; Uids := ∅ |}.

Definition no_aggregate : Response :=
  {| Json := "{" +:+ quoted "nodeCount" +:+ ":[]}"; Uids := ∅ |}.

Definition no_count : Response :=
  {| Json := "{" +:+ quoted "nodeCount" +:+ ":[{}]}"; Uids := ∅ |}.

End Examples.

(** ** Vocabulary of the statements *)

(** What the client answers to [call] in the world [w], and the world
    after exactly that one call. *)
Definition reply {S : Type} (c : Dgraph S) (call : Call) (w : World S) : result Response :=
  fst (serve c call (store w)).

Definition after {S : Type} (c : Dgraph S) (call : Call) (w : World S) : World S :=
  Build_World (snd (serve c call (store w))) (calls w ++ [call]).

(** What a lookup makes of the client's answer: the error of a failed
    query, the error of a failed decoding, [missing] for an empty list of
    rows, the first row otherwise. *)
Definition found {T : Type} `{Unmarshaler T} (tag : string) (missing : option error)
    (res : result Response) : outcome (option T * option error) :=
  match res with
  | Err e => Returns (None, Some e)
  | Ok resp =>
      match Unmarshal (Json resp) (zero : Root tag T) with
      | Err e => Returns (None, Some e)
      | Ok r =>
          match slice r with
          | [] => Returns (None, missing)
          | x :: _ => Returns (Some x, None)
          end
      end
  end.

(** What an upsert makes of the client's answer. *)
Definition submitted (res : result Response) : outcome (option Response * option error) :=
  match res with
  | Err e => Returns (None, Some e)
  | Ok assigned => Returns (Some assigned, None)
  end.

(** What [CountNodesWithField] makes of the client's answer. *)
Definition counted (res : result Response) : outcome (option Z * option error) :=
  match res with
  | Err e => Returns (None, Some e)
  | Ok resp =>
      match Unmarshal (Json resp) (zero : Root "nodeCount" NodeCount.t) with
      | Err e => Returns (None, Some e)
      | Ok r =>
          match slice r with
          | [] => Panics "runtime error: index out of range [0] with length 0"
          | x :: _ => Returns (Some (NodeCount.NodeCount x), None)
          end
      end
  end.

(** The calls of the lookups and of the upserts. *)
Definition lookup_call (q var value : string) : Call :=
  QueryCall true q (Some {[ var := value ]}).

Definition count_call : Call := QueryCall true Count_query None.

Definition set_call (payload : string) : Call :=
  MutateCall false {| SetJson := payload; DeleteJson := EmptyString; CommitNow := true |}.

Definition is_read_only_query (call : Call) : bool :=
  match call with
  | QueryCall true _ _ => true
  | _ => false
  end.

(** A client honours read-only transactions when a query made on one
    leaves the store as it was. *)
Definition honours_read_only {S : Type} (c : Dgraph S) : Prop :=
  forall q vars s, snd (serve c (QueryCall true q vars) s) = s.

(** [names tag key]: the decoder puts a member called [key] into the field
    tagged [tag] of a struct with that one field. *)
Definition names (tag key : string) : bool :=
  String.eqb tag key || String.eqb (Decode.lower tag) (Decode.lower key).

Definition lacks (tag : string) (ms : list (string * json)) : bool :=
  forallb (fun m => negb (names tag (fst m))) ms.

(** A body that says nothing about the rows: [null], or an object none
    of whose members is for the field tagged [tag]. *)
Definition silent_on (tag : string) (v : json) : bool :=
  match v with
  | JNull => true
  | JObject ms => lacks tag ms
  | _ => false
  end.

(** The keys of the members of an object are ASCII: for such keys,
    comparing without regard to the case of ASCII letters is what
    [encoding/json] does. *)
Definition is_ascii (s : string) : bool :=
  forallb (fun c => (Chars.code c <? 128)%N) (list_ascii_of_string s).

Definition keys_are_ascii (v : json) : bool :=
  match v with
  | JObject ms => forallb (fun m => is_ascii (fst m)) ms
  | _ => true
  end.

(** What a struct cannot be decoded from, and what a slice cannot. *)
Definition not_for_struct (v : json) : bool :=
  match v with
  | JNull | JObject _ => false
  | _ => true
  end.

Definition not_for_slice (v : json) : bool :=
  match v with
  | JNull | JArray _ => false
  | _ => true
  end.

(** The body the store sends for a count of [n]. *)
Definition count_body (n : Z) : string :=
  "{" +:+ Examples.quoted "nodeCount" +:+ ":[{" +:+ Examples.quoted "nodeCount" +:+ ":"
  +:+ Itoa n +:+ "}]}".

(** The six lookups of the source, each with its argument, the call it
    makes and the tag of the one field of its [Root]. *)
Inductive Lookup : Type :=
| ScrapeWithID (scrape : Scrape.t)
| ScrapeWithoutID (scrape : Scrape.t)
| EventWithUID (event : Event.t)
| EventWithoutUID (event : Event.t)
| LocationFromKentSlug (slug : string)
| NodesWithField (f : string).

Definition call_of (l : Lookup) : Call :=
  match l with
  | ScrapeWithID scrape => lookup_call FindScrape_query "$uid" (Scrape.UID scrape)
  | ScrapeWithoutID scrape => lookup_call FindScrapeNoID_query "$id" (Itoa (Scrape.ID scrape))
  | EventWithUID event => lookup_call FindEvent_query "$id" (Event.UID event)
  | EventWithoutUID event => lookup_call FindEventNoUID_query "$id" (Event.ID event)
  | LocationFromKentSlug slug => lookup_call FindLocationFromSlug_query "$id" slug
  | NodesWithField _ => count_call
  end.

Definition tag_of (l : Lookup) : string :=
  match l with
  | ScrapeWithID _ => "findScrape"
  | ScrapeWithoutID _ => "findScrapeNoID"
  | EventWithUID _ | EventWithoutUID _ => "findEvent"
  | LocationFromKentSlug _ => "findLocation"
  | NodesWithField _ => "nodeCount"
  end.

(** What the caller sees of a pair of results: which of the two is nil. *)
Inductive Shape : Type :=
| Found
| Absent
| Failed (e : error)
| FoundAndFailed (e : error)
| Panicked (msg : string).

Definition shape {A : Type} (o : outcome (option A * option error)) : Shape :=
  match o with
  | Returns (Some _, None) => Found
  | Returns (None, None) => Absent
  | Returns (None, Some e) => Failed e
  | Returns (Some _, Some e) => FoundAndFailed e
  | Panics msg => Panicked msg
  end.

Section Lookups.

Context {S : Type}.
Context `{Unmarshaler Scrape.t, Unmarshaler Event.t, Unmarshaler Location.t}.

(** Runs the function that [l] stands for. *)
Definition run (c : Dgraph S) (l : Lookup) (w : World S) : Shape * World S :=
  match l with
  | ScrapeWithID scrape => let '(o, w') := getScrapeWithID c scrape w in (shape o, w')
  | ScrapeWithoutID scrape => let '(o, w') := getScrapeWithoutID c scrape w in (shape o, w')
  | EventWithUID event => let '(o, w') := getEventWithUID c event w in (shape o, w')
  | EventWithoutUID event => let '(o, w') := getEventWithoutUID c event w in (shape o, w')
  | LocationFromKentSlug slug => let '(o, w') := GetLocationFromKentSlug c slug w in (shape o, w')
  | NodesWithField f => let '(o, w') := CountNodesWithField c f w in (shape o, w')
  end.

End Lookups.

(** Reduces the left-hand side of the goal to its head normal form, with
    the calls of [JSON.parse_value] left as they are. *)
Ltac head_step :=
  match goal with
  | |- ?l = ?r =>
      let l' := eval lazy head beta iota zeta delta -[JSON.parse_value] in l in
      change (l' = r)
  end.

(** ** Properties *)

Section Properties.

Context {S : Type}.
Context `{Unmarshaler Scrape.t, Unmarshaler Event.t, Unmarshaler Location.t}.
Context `{Marshaler Scrape.t, Marshaler Event.t, Marshaler Location.t}.

Implicit Types (c : Dgraph S) (w : World S).

Lemma bind_perform {A : Type} c call (k : result Response -> Go S A) w :
  (res ← perform c call; k res) w = k (reply c call w) (after c call w).
Proof.
  unfold mbind, Go_bind, perform, reply, after.
  destruct (serve c call (store w)) as [res s']; reflexivity.
Qed.

Lemma index_first {T : Type} (x : T) (l : list T) w :
  index (x :: l) 0 w = (Returns x, w).
Proof. reflexivity. Qed.

Lemma index_empty {T : Type} w :
  index (@nil T) 0 w = (Panics "runtime error: index out of range [0] with length 0", w).
Proof. reflexivity. Qed.

(** The shape shared by the five lookups of records. *)
Lemma lookup_run {T : Type} `{Unmarshaler T} (tag : string) (missing : option error)
    c call w :
  (res ← perform c call;
   match res with
   | Err err => mret (None, Some err)
   | Ok resp =>
       match Unmarshal (Json resp) (zero : Root tag T) with
       | Err err => mret (None, Some err)
       | Ok r =>
           if (length (slice r) =? 0)%nat then mret (None, missing)
           else x ← index (slice r) 0; mret (Some x, None)
       end
   end) w = (found tag missing (reply c call w), after c call w).
Proof.
  rewrite bind_perform. unfold found.
  destruct (reply c call w) as [resp|e]; [|reflexivity].
  destruct (Unmarshal (Json resp) zero) as [[l]|e]; [|reflexivity].
  destruct l as [|x l]; reflexivity.
Qed.

Lemma getScrapeWithID_run c scrape w :
  getScrapeWithID c scrape w =
    (found "findScrape"
       (Some (Errorf ("No Scrape found with id " +:+ Scrape.UID scrape)))
       (reply c (lookup_call FindScrape_query "$uid" (Scrape.UID scrape)) w),
     after c (lookup_call FindScrape_query "$uid" (Scrape.UID scrape)) w).
Proof. apply lookup_run. Qed.

Lemma getScrapeWithoutID_run c scrape w :
  getScrapeWithoutID c scrape w =
    (found "findScrapeNoID" None
       (reply c (lookup_call FindScrapeNoID_query "$id" (Itoa (Scrape.ID scrape))) w),
     after c (lookup_call FindScrapeNoID_query "$id" (Itoa (Scrape.ID scrape))) w).
Proof. apply lookup_run. Qed.

Lemma getEventWithUID_run c event w :
  getEventWithUID c event w =
    (found "findEvent"
       (Some (Errorf ("No Event found with uid " +:+ Event.UID event)))
       (reply c (lookup_call FindEvent_query "$id" (Event.UID event)) w),
     after c (lookup_call FindEvent_query "$id" (Event.UID event)) w).
Proof. apply lookup_run. Qed.

Lemma getEventWithoutUID_run c event w :
  getEventWithoutUID c event w =
    (found "findEvent" None
       (reply c (lookup_call FindEventNoUID_query "$id" (Event.ID event)) w),
     after c (lookup_call FindEventNoUID_query "$id" (Event.ID event)) w).
Proof. apply lookup_run. Qed.

Lemma GetLocationFromKentSlug_run c slug w :
  GetLocationFromKentSlug c slug w =
    (found "findLocation" None
       (reply c (lookup_call FindLocationFromSlug_query "$id" slug) w),
     after c (lookup_call FindLocationFromSlug_query "$id" slug) w).
Proof. apply lookup_run. Qed.

Lemma CountNodesWithField_run c f w :
  CountNodesWithField c f w = (counted (reply c count_call w), after c count_call w).
Proof.
  unfold CountNodesWithField, Query. cbn [dg readOnly NewReadOnlyTxn].
  rewrite bind_perform. fold count_call. unfold counted.
  destruct (reply c count_call w) as [resp|e]; [|reflexivity].
  destruct (Unmarshal (Json resp) zero) as [[l]|e]; [|reflexivity].
  destruct l as [|x l]; reflexivity.
Qed.

Lemma upsert_run (payload : string) c w :
  (res ← Mutate (NewTxn c)
           {| SetJson := payload; DeleteJson := EmptyString; CommitNow := true |};
   match res with
   | Err err => mret (None, Some err)
   | Ok assigned => mret (Some assigned, None)
   end) w = (submitted (reply c (set_call payload) w), after c (set_call payload) w).
Proof.
  unfold Mutate. cbn [dg readOnly NewTxn]. rewrite bind_perform. fold (set_call payload).
  destruct (reply c (set_call payload) w); reflexivity.
Qed.

Lemma UpsertScrape_run c scrape w :
  UpsertScrape c scrape w =
    match Marshal scrape with
    | Err e => (Returns (None, Some e), w)
    | Ok pb => (submitted (reply c (set_call pb) w), after c (set_call pb) w)
    end.
Proof.
  unfold UpsertScrape. destruct (Marshal scrape) as [pb|e]; [|reflexivity].
  apply upsert_run.
Qed.

Lemma UpsertLocation_run c loc w :
  UpsertLocation c loc w =
    match Marshal loc with
    | Err e => (Returns (None, Some e), w)
    | Ok pb => (submitted (reply c (set_call pb) w), after c (set_call pb) w)
    end.
Proof.
  unfold UpsertLocation. destruct (Marshal loc) as [pb|e]; [|reflexivity].
  apply upsert_run.
Qed.

(** The branch on [y.ErrAborted] is taken or not, and the same pair is
    returned either way. *)
Lemma UpsertEvent_run c event w :
  UpsertEvent c event w =
    match Marshal event with
    | Err e => (Returns (None, Some e), w)
    | Ok pb => (submitted (reply c (set_call pb) w), after c (set_call pb) w)
    end.
Proof.
  unfold UpsertEvent. destruct (Marshal event) as [pb|e]; [|reflexivity].
  unfold Mutate. cbn [dg readOnly NewTxn DeleteJson CommitNow].
  rewrite bind_perform. fold (set_call pb).
  destruct (reply c (set_call pb) w) as [assigned|upsertErr]; [reflexivity|].
  destruct (decide (upsertErr = ErrAborted)); reflexivity.
Qed.

Lemma GetScrape_with_id c scrape :
  Scrape.UID scrape <> EmptyString -> GetScrape c scrape = getScrapeWithID c scrape.
Proof.
  intros Hset. unfold GetScrape.
  destruct (String.eqb_spec (Scrape.UID scrape) EmptyString); [contradiction|reflexivity].
Qed.

Lemma GetScrape_without_id c scrape :
  Scrape.UID scrape = EmptyString -> GetScrape c scrape = getScrapeWithoutID c scrape.
Proof. intros Hunset. unfold GetScrape. rewrite Hunset. reflexivity. Qed.

Lemma GetEvent_with_uid c event :
  Event.UID event <> EmptyString -> GetEvent c event = getEventWithUID c event.
Proof.
  intros Hset. unfold GetEvent.
  destruct (String.eqb_spec (Event.UID event) EmptyString); [contradiction|reflexivity].
Qed.

Lemma GetEvent_without_uid c event :
  Event.UID event = EmptyString -> GetEvent c event = getEventWithoutUID c event.
Proof. intros Hunset. unfold GetEvent. rewrite Hunset. reflexivity. Qed.

Lemma found_empty {T : Type} `{Unmarshaler T} (tag : string) missing resp (r : Root tag T) :
  Unmarshal (Json resp) (zero : Root tag T) = Ok r -> slice r = [] ->
  found tag missing (Ok resp) = Returns (None, missing).
Proof. intros Hdec Hnil. unfold found. rewrite Hdec, Hnil. reflexivity. Qed.

Lemma found_first {T : Type} `{Unmarshaler T} (tag : string) missing resp (r : Root tag T) x l :
  Unmarshal (Json resp) (zero : Root tag T) = Ok r -> slice r = x :: l ->
  found tag missing (Ok resp) = Returns (Some x, None).
Proof. intros Hdec Hcons. unfold found. rewrite Hdec, Hcons. reflexivity. Qed.

(** *** Lookups *)

(** C3: when the internal id of a scrape or of an event is set, and the
    query succeeds but its answer decodes to no rows, [GetScrape] and
    [GetEvent] return a nil record with a non-nil error, and the message of
    that error ends with the id that was searched. *)
Theorem not_found_by_internal_id_is_an_error :
  (forall c (scrape : Scrape.t) w resp (r : Root "findScrape" Scrape.t),
      Scrape.UID scrape <> EmptyString ->
      reply c (lookup_call FindScrape_query "$uid" (Scrape.UID scrape)) w = Ok resp ->
      Unmarshal (Json resp) zero = Ok r ->
      slice r = [] ->
      exists err,
        fst (GetScrape c scrape w) = Returns (None, Some err) /\
        Error err = "No Scrape found with id " +:+ Scrape.UID scrape)
  /\
  (forall c (event : Event.t) w resp (r : Root "findEvent" Event.t),
      Event.UID event <> EmptyString ->
      reply c (lookup_call FindEvent_query "$id" (Event.UID event)) w = Ok resp ->
      Unmarshal (Json resp) zero = Ok r ->
      slice r = [] ->
      exists err,
        fst (GetEvent c event w) = Returns (None, Some err) /\
        Error err = "No Event found with uid " +:+ Event.UID event).
Proof.
  split.
  - intros c scrape w resp r Hset Hreply Hdec Hnil.
    rewrite (GetScrape_with_id c scrape Hset), getScrapeWithID_run, Hreply.
    rewrite (found_empty _ _ _ _ Hdec Hnil).
    eexists; split; reflexivity.
  - intros c event w resp r Hset Hreply Hdec Hnil.
    rewrite (GetEvent_with_uid c event Hset), getEventWithUID_run, Hreply.
    rewrite (found_empty _ _ _ _ Hdec Hnil).
    eexists; split; reflexivity.
Qed.

(** C4: a lookup by external id (a scrape or an event whose internal id is
    empty, a location by its slug) whose query succeeds but decodes to no
    rows returns a nil record and a nil error. *)
Theorem not_found_by_external_id_is_no_error :
  (forall c (scrape : Scrape.t) w resp (r : Root "findScrapeNoID" Scrape.t),
      Scrape.UID scrape = EmptyString ->
      reply c (lookup_call FindScrapeNoID_query "$id" (Itoa (Scrape.ID scrape))) w = Ok resp ->
      Unmarshal (Json resp) zero = Ok r ->
      slice r = [] ->
      fst (GetScrape c scrape w) = Returns (None, None))
  /\
  (forall c (event : Event.t) w resp (r : Root "findEvent" Event.t),
      Event.UID event = EmptyString ->
      reply c (lookup_call FindEventNoUID_query "$id" (Event.ID event)) w = Ok resp ->
      Unmarshal (Json resp) zero = Ok r ->
      slice r = [] ->
      fst (GetEvent c event w) = Returns (None, None))
  /\
  (forall c (slug : string) w resp (r : Root "findLocation" Location.t),
      reply c (lookup_call FindLocationFromSlug_query "$id" slug) w = Ok resp ->
      Unmarshal (Json resp) zero = Ok r ->
      slice r = [] ->
      fst (GetLocationFromKentSlug c slug w) = Returns (None, None)).
Proof.
  repeat split.
  - intros c scrape w resp r Hunset Hreply Hdec Hnil.
    rewrite (GetScrape_without_id c scrape Hunset), getScrapeWithoutID_run, Hreply.
    exact (found_empty _ _ _ _ Hdec Hnil).
  - intros c event w resp r Hunset Hreply Hdec Hnil.
    rewrite (GetEvent_without_uid c event Hunset), getEventWithoutUID_run, Hreply.
    exact (found_empty _ _ _ _ Hdec Hnil).
  - intros c slug w resp r Hreply Hdec Hnil.
    rewrite GetLocationFromKentSlug_run, Hreply.
    exact (found_empty _ _ _ _ Hdec Hnil).
Qed.

(** C5: when the internal id is set, [GetScrape] and [GetEvent] look the
    record up by internal id, whatever the external id is: the one call made
    is the query by [uid] with the internal id as its only variable, and two
    records with the same internal id get the same outcome. *)
Theorem internal_id_takes_priority :
  (forall c (scrape : Scrape.t) w,
      Scrape.UID scrape <> EmptyString ->
      GetScrape c scrape w = getScrapeWithID c scrape w /\
      snd (GetScrape c scrape w)
        = after c (QueryCall true FindScrape_query (Some {[ "$uid" := Scrape.UID scrape ]})) w /\
      forall scrape' : Scrape.t,
        Scrape.UID scrape' = Scrape.UID scrape ->
        GetScrape c scrape' w = GetScrape c scrape w)
  /\
  (forall c (event : Event.t) w,
      Event.UID event <> EmptyString ->
      GetEvent c event w = getEventWithUID c event w /\
      snd (GetEvent c event w)
        = after c (QueryCall true FindEvent_query (Some {[ "$id" := Event.UID event ]})) w /\
      forall event' : Event.t,
        Event.UID event' = Event.UID event ->
        GetEvent c event' w = GetEvent c event w).
Proof.
  split.
  - intros c scrape w Hset. repeat split.
    + rewrite (GetScrape_with_id c scrape Hset). reflexivity.
    + rewrite (GetScrape_with_id c scrape Hset), getScrapeWithID_run. reflexivity.
    + intros scrape' Hsame.
      assert (Hset' : Scrape.UID scrape' <> EmptyString) by (rewrite Hsame; exact Hset).
      rewrite (GetScrape_with_id c scrape Hset), (GetScrape_with_id c scrape' Hset').
      rewrite !getScrapeWithID_run, Hsame. reflexivity.
  - intros c event w Hset. repeat split.
    + rewrite (GetEvent_with_uid c event Hset). reflexivity.
    + rewrite (GetEvent_with_uid c event Hset), getEventWithUID_run. reflexivity.
    + intros event' Hsame.
      assert (Hset' : Event.UID event' <> EmptyString) by (rewrite Hsame; exact Hset).
      rewrite (GetEvent_with_uid c event Hset), (GetEvent_with_uid c event' Hset').
      rewrite !getEventWithUID_run, Hsame. reflexivity.
Qed.

(** C6: a lookup whose query succeeds and whose answer decodes to a list of
    rows that is not empty returns the first row of that list, and no
    error. *)
Theorem lookup_returns_first_row :
  (forall c (scrape : Scrape.t) w resp (r : Root "findScrape" Scrape.t) x rest,
      reply c (lookup_call FindScrape_query "$uid" (Scrape.UID scrape)) w = Ok resp ->
      Unmarshal (Json resp) zero = Ok r ->
      slice r = x :: rest ->
      fst (getScrapeWithID c scrape w) = Returns (Some x, None))
  /\
  (forall c (scrape : Scrape.t) w resp (r : Root "findScrapeNoID" Scrape.t) x rest,
      reply c (lookup_call FindScrapeNoID_query "$id" (Itoa (Scrape.ID scrape))) w = Ok resp ->
      Unmarshal (Json resp) zero = Ok r ->
      slice r = x :: rest ->
      fst (getScrapeWithoutID c scrape w) = Returns (Some x, None))
  /\
  (forall c (event : Event.t) w resp (r : Root "findEvent" Event.t) x rest,
      reply c (lookup_call FindEvent_query "$id" (Event.UID event)) w = Ok resp ->
      Unmarshal (Json resp) zero = Ok r ->
      slice r = x :: rest ->
      fst (getEventWithUID c event w) = Returns (Some x, None))
  /\
  (forall c (event : Event.t) w resp (r : Root "findEvent" Event.t) x rest,
      reply c (lookup_call FindEventNoUID_query "$id" (Event.ID event)) w = Ok resp ->
      Unmarshal (Json resp) zero = Ok r ->
      slice r = x :: rest ->
      fst (getEventWithoutUID c event w) = Returns (Some x, None))
  /\
  (forall c (slug : string) w resp (r : Root "findLocation" Location.t) x rest,
      reply c (lookup_call FindLocationFromSlug_query "$id" slug) w = Ok resp ->
      Unmarshal (Json resp) zero = Ok r ->
      slice r = x :: rest ->
      fst (GetLocationFromKentSlug c slug w) = Returns (Some x, None)).
Proof.
  repeat split; intros c rec w resp r x rest Hreply Hdec Hcons.
  - rewrite getScrapeWithID_run, Hreply. exact (found_first _ _ _ _ _ _ Hdec Hcons).
  - rewrite getScrapeWithoutID_run, Hreply. exact (found_first _ _ _ _ _ _ Hdec Hcons).
  - rewrite getEventWithUID_run, Hreply. exact (found_first _ _ _ _ _ _ Hdec Hcons).
  - rewrite getEventWithoutUID_run, Hreply. exact (found_first _ _ _ _ _ _ Hdec Hcons).
  - rewrite GetLocationFromKentSlug_run, Hreply. exact (found_first _ _ _ _ _ _ Hdec Hcons).
Qed.

(** C10: a record with neither id set is not refused: [GetScrape] makes the
    query by external id with the variable bound to the decimal string of
    zero, [GetEvent] makes it with the variable bound to the empty string,
    and the outcome is what the store's answer to that query decodes to. *)
Theorem blank_record_probes_zero_key :
  (forall c (scrape : Scrape.t) w,
      Scrape.UID scrape = EmptyString ->
      Scrape.ID scrape = 0%Z ->
      GetScrape c scrape w
        = (found "findScrapeNoID" None
             (reply c (QueryCall true FindScrapeNoID_query (Some {[ "$id" := "0" ]})) w),
           after c (QueryCall true FindScrapeNoID_query (Some {[ "$id" := "0" ]})) w))
  /\
  (forall c (event : Event.t) w,
      Event.UID event = EmptyString ->
      Event.ID event = EmptyString ->
      GetEvent c event w
        = (found "findEvent" None
             (reply c (QueryCall true FindEventNoUID_query (Some {[ "$id" := EmptyString ]})) w),
           after c (QueryCall true FindEventNoUID_query (Some {[ "$id" := EmptyString ]})) w)).
Proof.
  split.
  - intros c scrape w Hunset Hzero.
    rewrite (GetScrape_without_id c scrape Hunset), getScrapeWithoutID_run, Hzero.
    reflexivity.
  - intros c event w Hunset Hempty.
    rewrite (GetEvent_without_uid c event Hunset), getEventWithoutUID_run, Hempty.
    reflexivity.
Qed.

(** *** Upserts *)

(** C7: an upsert makes exactly one call, a set-mutation on a read-write
    transaction that carries the serialized record and commits at once; an
    error of the store (an abort included) comes back as the same value,
    with no second call; and when serialization fails, the error of the
    serializer comes back and no call is made at all. *)
Theorem upsert_submits_once_and_passes_errors_on :
  (forall c (scrape : Scrape.t) w,
      match Marshal scrape with
      | Err e => UpsertScrape c scrape w = (Returns (None, Some e), w)
      | Ok pb =>
          let call := MutateCall false
                        {| SetJson := pb; DeleteJson := EmptyString; CommitNow := true |} in
          snd (UpsertScrape c scrape w) = after c call w /\
          match reply c call w with
          | Err e => fst (UpsertScrape c scrape w) = Returns (None, Some e)
          | Ok assigned => fst (UpsertScrape c scrape w) = Returns (Some assigned, None)
          end
      end)
  /\
  (forall c (event : Event.t) w,
      match Marshal event with
      | Err e => UpsertEvent c event w = (Returns (None, Some e), w)
      | Ok pb =>
          let call := MutateCall false
                        {| SetJson := pb; DeleteJson := EmptyString; CommitNow := true |} in
          snd (UpsertEvent c event w) = after c call w /\
          match reply c call w with
          | Err e => fst (UpsertEvent c event w) = Returns (None, Some e)
          | Ok assigned => fst (UpsertEvent c event w) = Returns (Some assigned, None)
          end
      end)
  /\
  (forall c (loc : Location.t) w,
      match Marshal loc with
      | Err e => UpsertLocation c loc w = (Returns (None, Some e), w)
      | Ok pb =>
          let call := MutateCall false
                        {| SetJson := pb; DeleteJson := EmptyString; CommitNow := true |} in
          snd (UpsertLocation c loc w) = after c call w /\
          match reply c call w with
          | Err e => fst (UpsertLocation c loc w) = Returns (None, Some e)
          | Ok assigned => fst (UpsertLocation c loc w) = Returns (Some assigned, None)
          end
      end).
Proof.
  repeat split.
  - intros c scrape w. rewrite UpsertScrape_run.
    destruct (Marshal scrape) as [pb|e]; [|reflexivity].
    cbn zeta. fold (set_call pb). split; [reflexivity|].
    cbn [fst]. destruct (reply c (set_call pb) w); reflexivity.
  - intros c event w. rewrite UpsertEvent_run.
    destruct (Marshal event) as [pb|e]; [|reflexivity].
    cbn zeta. fold (set_call pb). split; [reflexivity|].
    cbn [fst]. destruct (reply c (set_call pb) w); reflexivity.
  - intros c loc w. rewrite UpsertLocation_run.
    destruct (Marshal loc) as [pb|e]; [|reflexivity].
    cbn zeta. fold (set_call pb). split; [reflexivity|].
    cbn [fst]. destruct (reply c (set_call pb) w); reflexivity.
Qed.

(** C9: the three upserts differ in the record type only. Whenever an
    event and a scrape (or a location) serialize to the same outcome,
    [UpsertEvent] and [UpsertScrape] (or [UpsertLocation]) return the same
    pair and leave the same world, for every client and every answer of the
    store: the comparison with [y.ErrAborted] in [UpsertEvent] changes
    nothing. *)
Theorem upserts_agree_up_to_record_type :
  forall c w (event : Event.t),
    (forall scrape : Scrape.t,
        Marshal event = Marshal scrape ->
        UpsertEvent c event w = UpsertScrape c scrape w)
    /\
    (forall loc : Location.t,
        Marshal event = Marshal loc ->
        UpsertEvent c event w = UpsertLocation c loc w).
Proof.
  intros c w event. split.
  - intros scrape Hsame. rewrite UpsertEvent_run, UpsertScrape_run, Hsame. reflexivity.
  - intros loc Hsame. rewrite UpsertEvent_run, UpsertLocation_run, Hsame. reflexivity.
Qed.

(** *** Lookups do not write *)

(** C8: each lookup makes exactly one call, a query on a read-only
    transaction, and no mutation; so with a client that honours read-only
    transactions the store is the same after the lookup as before it. *)
Theorem lookups_leave_the_store_unchanged :
  forall c w,
    (forall scrape : Scrape.t,
        (exists call, is_read_only_query call = true /\
                      snd (GetScrape c scrape w) = after c call w) /\
        (honours_read_only c -> store (snd (GetScrape c scrape w)) = store w))
    /\
    (forall event : Event.t,
        (exists call, is_read_only_query call = true /\
                      snd (GetEvent c event w) = after c call w) /\
        (honours_read_only c -> store (snd (GetEvent c event w)) = store w))
    /\
    (forall slug : string,
        (exists call, is_read_only_query call = true /\
                      snd (GetLocationFromKentSlug c slug w) = after c call w) /\
        (honours_read_only c -> store (snd (GetLocationFromKentSlug c slug w)) = store w))
    /\
    (forall f : string,
        (exists call, is_read_only_query call = true /\
                      snd (CountNodesWithField c f w) = after c call w) /\
        (honours_read_only c -> store (snd (CountNodesWithField c f w)) = store w)).
Proof.
  intros c w.
  assert (Hafter : forall (W : World S) q vars,
             W = after c (QueryCall true q vars) w ->
             (exists call, is_read_only_query call = true /\ W = after c call w) /\
             (honours_read_only c -> store W = store w)).
  { intros W q vars ->. split.
    - exists (QueryCall true q vars). split; reflexivity.
    - intros Hro. apply Hro. }
  split; [|split; [|split]].
  - intros scrape.
    destruct (String.eqb_spec (Scrape.UID scrape) EmptyString) as [Hunset|Hset].
    + rewrite (GetScrape_without_id c scrape Hunset), getScrapeWithoutID_run.
      eapply Hafter; reflexivity.
    + rewrite (GetScrape_with_id c scrape Hset), getScrapeWithID_run.
      eapply Hafter; reflexivity.
  - intros event.
    destruct (String.eqb_spec (Event.UID event) EmptyString) as [Hunset|Hset].
    + rewrite (GetEvent_without_uid c event Hunset), getEventWithoutUID_run.
      eapply Hafter; reflexivity.
    + rewrite (GetEvent_with_uid c event Hset), getEventWithUID_run.
      eapply Hafter; reflexivity.
  - intros slug. rewrite GetLocationFromKentSlug_run. eapply Hafter; reflexivity.
  - intros f. rewrite CountNodesWithField_run. eapply Hafter; reflexivity.
Qed.

(** *** Failures of the store and of the decoding *)

(** X1: a failed query comes back from every lookup as the same error
    value, with a nil result. *)
Theorem query_failure_is_passed_on :
  forall c w (e : error),
    (forall scrape : Scrape.t,
        reply c (lookup_call FindScrape_query "$uid" (Scrape.UID scrape)) w = Err e ->
        fst (getScrapeWithID c scrape w) = Returns (None, Some e))
    /\
    (forall scrape : Scrape.t,
        reply c (lookup_call FindScrapeNoID_query "$id" (Itoa (Scrape.ID scrape))) w = Err e ->
        fst (getScrapeWithoutID c scrape w) = Returns (None, Some e))
    /\
    (forall event : Event.t,
        reply c (lookup_call FindEvent_query "$id" (Event.UID event)) w = Err e ->
        fst (getEventWithUID c event w) = Returns (None, Some e))
    /\
    (forall event : Event.t,
        reply c (lookup_call FindEventNoUID_query "$id" (Event.ID event)) w = Err e ->
        fst (getEventWithoutUID c event w) = Returns (None, Some e))
    /\
    (forall slug : string,
        reply c (lookup_call FindLocationFromSlug_query "$id" slug) w = Err e ->
        fst (GetLocationFromKentSlug c slug w) = Returns (None, Some e))
    /\
    (forall f : string,
        reply c count_call w = Err e ->
        fst (CountNodesWithField c f w) = Returns (None, Some e)).
Proof.
  intros c w e. split; [|split; [|split; [|split; [|split]]]]; intros x Hreply.
  - rewrite getScrapeWithID_run, Hreply. reflexivity.
  - rewrite getScrapeWithoutID_run, Hreply. reflexivity.
  - rewrite getEventWithUID_run, Hreply. reflexivity.
  - rewrite getEventWithoutUID_run, Hreply. reflexivity.
  - rewrite GetLocationFromKentSlug_run, Hreply. reflexivity.
  - rewrite CountNodesWithField_run, Hreply. reflexivity.
Qed.

Lemma Unmarshal_syntax {T : Type} `{Unmarshaler T} (data : string) (t : T) :
  JSON.parse data = None ->
  Unmarshal data t = Err (SyntaxError "invalid character in JSON input").
Proof. intros Hbad. unfold Unmarshal. rewrite Hbad. reflexivity. Qed.

(** X2: a body that is not JSON comes back from every lookup as a syntax
    error of the decoder, with a nil result. *)
Theorem malformed_body_is_a_decode_error :
  forall c w resp,
    JSON.parse (Json resp) = None ->
    (forall scrape : Scrape.t,
        reply c (lookup_call FindScrape_query "$uid" (Scrape.UID scrape)) w = Ok resp ->
        exists msg, fst (getScrapeWithID c scrape w) = Returns (None, Some (SyntaxError msg)))
    /\
    (forall scrape : Scrape.t,
        reply c (lookup_call FindScrapeNoID_query "$id" (Itoa (Scrape.ID scrape))) w = Ok resp ->
        exists msg, fst (getScrapeWithoutID c scrape w) = Returns (None, Some (SyntaxError msg)))
    /\
    (forall event : Event.t,
        reply c (lookup_call FindEvent_query "$id" (Event.UID event)) w = Ok resp ->
        exists msg, fst (getEventWithUID c event w) = Returns (None, Some (SyntaxError msg)))
    /\
    (forall event : Event.t,
        reply c (lookup_call FindEventNoUID_query "$id" (Event.ID event)) w = Ok resp ->
        exists msg, fst (getEventWithoutUID c event w) = Returns (None, Some (SyntaxError msg)))
    /\
    (forall slug : string,
        reply c (lookup_call FindLocationFromSlug_query "$id" slug) w = Ok resp ->
        exists msg, fst (GetLocationFromKentSlug c slug w) = Returns (None, Some (SyntaxError msg)))
    /\
    (forall f : string,
        reply c count_call w = Ok resp ->
        exists msg, fst (CountNodesWithField c f w) = Returns (None, Some (SyntaxError msg))).
Proof.
  intros c w resp Hbad.
  split; [|split; [|split; [|split; [|split]]]]; intros x Hreply; eexists.
  - rewrite getScrapeWithID_run, Hreply. cbn [fst found].
    rewrite (Unmarshal_syntax _ _ Hbad). reflexivity.
  - rewrite getScrapeWithoutID_run, Hreply. cbn [fst found].
    rewrite (Unmarshal_syntax _ _ Hbad). reflexivity.
  - rewrite getEventWithUID_run, Hreply. cbn [fst found].
    rewrite (Unmarshal_syntax _ _ Hbad). reflexivity.
  - rewrite getEventWithoutUID_run, Hreply. cbn [fst found].
    rewrite (Unmarshal_syntax _ _ Hbad). reflexivity.
  - rewrite GetLocationFromKentSlug_run, Hreply. cbn [fst found].
    rewrite (Unmarshal_syntax _ _ Hbad). reflexivity.
  - rewrite CountNodesWithField_run, Hreply. cbn [fst counted].
    rewrite (Unmarshal_syntax _ _ Hbad). reflexivity.
Qed.

Lemma found_returns {T : Type} `{Unmarshaler T} (tag : string) missing res :
  exists v : option T * option error, found tag missing res = Returns v.
Proof.
  unfold found. destruct res as [resp|e]; [|eexists; reflexivity].
  destruct (Unmarshal (Json resp) zero) as [[l]|e]; [|eexists; reflexivity].
  destruct l; eexists; reflexivity.
Qed.

(** X3: with a client that keeps dgo's contract (it is not nil, and it
    answers every call with a response or with an error), the lookups of
    records always return: the first row is read only after the check that
    there is one. *)
Theorem record_lookups_never_panic :
  forall c w,
    (forall scrape : Scrape.t, exists v, fst (GetScrape c scrape w) = Returns v) /\
    (forall event : Event.t, exists v, fst (GetEvent c event w) = Returns v) /\
    (forall slug : string, exists v, fst (GetLocationFromKentSlug c slug w) = Returns v).
Proof.
  intros c w. split; [|split].
  - intros scrape.
    destruct (String.eqb_spec (Scrape.UID scrape) EmptyString) as [Hunset|Hset].
    + rewrite (GetScrape_without_id c scrape Hunset), getScrapeWithoutID_run.
      apply found_returns.
    + rewrite (GetScrape_with_id c scrape Hset), getScrapeWithID_run. apply found_returns.
  - intros event.
    destruct (String.eqb_spec (Event.UID event) EmptyString) as [Hunset|Hset].
    + rewrite (GetEvent_without_uid c event Hunset), getEventWithoutUID_run.
      apply found_returns.
    + rewrite (GetEvent_with_uid c event Hset), getEventWithUID_run. apply found_returns.
  - intros slug. rewrite GetLocationFromKentSlug_run. apply found_returns.
Qed.

(** *** Counting *)

(** C1, as the code has it: whatever field name it is given,
    [CountNodesWithField] makes one and the same call, the count over the
    nodes that have [location.id], on a read-only transaction and without
    variables; the field name changes neither the query nor the outcome. *)
Theorem count_query_is_fixed_on_location_id :
  forall c (f : string) w,
    snd (CountNodesWithField c f w) = after c (QueryCall true Count_query None) w /\
    Text.contains "nodeCount(func: has(location.id))" Count_query = true /\
    forall g : string, CountNodesWithField c g w = CountNodesWithField c f w.
Proof.
  intros c f w. split; [|split].
  - rewrite CountNodesWithField_run. reflexivity.
  - vm_compute. reflexivity.
  - intros g. rewrite !CountNodesWithField_run. reflexivity.
Qed.

(** Whenever the answer to the count query decodes to no aggregate, the
    indexing of the first one panics. *)
Lemma CountNodesWithField_panics_without_aggregate c f w resp
    (r : Root "nodeCount" NodeCount.t) :
  reply c count_call w = Ok resp ->
  Unmarshal (Json resp) zero = Ok r ->
  slice r = [] ->
  fst (CountNodesWithField c f w)
    = Panics "runtime error: index out of range [0] with length 0".
Proof.
  intros Hreply Hdec Hnil. rewrite CountNodesWithField_run, Hreply.
  cbn [fst counted]. rewrite Hdec, Hnil. reflexivity.
Qed.

End Properties.

(** ** The operations on the example data *)

Section Runs.

Import Sample Examples.

Lemma MemStore_honours_read_only : honours_read_only MemStore.client.
Proof.
  intros q vars st. cbn [serve MemStore.client MemStore.handle].
  destruct (MemStore.answer vars q (MemStore.nodes st)); reflexivity.
Qed.

(** C2, against the code: answered with a well-formed body that lacks the
    key, or whose list of aggregates is empty, [CountNodesWithField] does
    not return a decode error: it panics on the index; and answered with an
    aggregate that lacks its count, it returns zero and no error. *)
Theorem CountNodesWithField_on_unexpected_shapes :
  fst (CountNodesWithField (scripted (Ok no_key)) "location.id" nowhere)
    = Panics "runtime error: index out of range [0] with length 0" /\
  fst (CountNodesWithField (scripted (Ok no_aggregate)) "location.id" nowhere)
    = Panics "runtime error: index out of range [0] with length 0" /\
  fst (CountNodesWithField (scripted (Ok no_count)) "location.id" nowhere)
    = Returns (Some 0%Z, None).
Proof. repeat split; vm_compute; reflexivity. Qed.

(** C1, as stated, fails: in a store whose only node is an event, one node
    has the field [event.id], and the count asked for [event.id] is zero;
    the call made is the one made for [location.id]. *)
Lemma count_of_another_field_is_not_counted :
  length (List.filter (MemStore.has "event.id") (MemStore.nodes (store one_event))) = 1%nat /\
  fst (CountNodesWithField MemStore.client "event.id" one_event) = Returns (Some 0%Z, None) /\
  snd (CountNodesWithField MemStore.client "event.id" one_event)
    = snd (CountNodesWithField MemStore.client "location.id" one_event).
Proof. repeat split; vm_compute; reflexivity. Qed.

Lemma not_found_by_internal_id_witness :
  (exists err,
      fst (GetScrape MemStore.client unknown_scrape populated) = Returns (None, Some err) /\
      Error err = "No Scrape found with id 0x9")
  /\
  (exists err,
      fst (GetEvent MemStore.client unknown_event populated) = Returns (None, Some err) /\
      Error err = "No Event found with uid 0x9").
Proof.
  split.
  - apply (proj1 not_found_by_internal_id_is_an_error MemStore.client unknown_scrape populated
             (body (JObject [("findScrape", JArray [])])) (Build_Root []));
      [ discriminate | vm_compute; reflexivity | vm_compute; reflexivity | reflexivity ].
  - apply (proj2 not_found_by_internal_id_is_an_error MemStore.client unknown_event populated
             (body (JObject [("findEvent", JArray [])])) (Build_Root []));
      [ discriminate | vm_compute; reflexivity | vm_compute; reflexivity | reflexivity ].
Defined.

Lemma not_found_by_external_id_witness :
  fst (GetScrape MemStore.client blank_scrape populated) = Returns (None, None) /\
  fst (GetEvent MemStore.client blank_event populated) = Returns (None, None) /\
  fst (GetLocationFromKentSlug MemStore.client "medway-M1" populated) = Returns (None, None).
Proof.
  destruct (not_found_by_external_id_is_no_error (S := MemStore.t)) as (Hscrape & Hevent & Hlocation).
  split; [|split].
  - apply (Hscrape MemStore.client blank_scrape populated
             (body (JObject [("findScrapeNoID", JArray [])])) (Build_Root []));
      [ reflexivity | vm_compute; reflexivity | vm_compute; reflexivity | reflexivity ].
  - apply (Hevent MemStore.client blank_event populated
             (body (JObject [("findEvent", JArray [])])) (Build_Root []));
      [ reflexivity | vm_compute; reflexivity | vm_compute; reflexivity | reflexivity ].
  - apply (Hlocation MemStore.client "medway-M1" populated
             (body (JObject [("findLocation", JArray [])])) (Build_Root []));
      [ vm_compute; reflexivity | vm_compute; reflexivity | reflexivity ].
Defined.

Lemma internal_id_takes_priority_witness :
  (snd (GetScrape MemStore.client both_ids populated)
     = after MemStore.client (QueryCall true FindScrape_query (Some {[ "$uid" := "0x3" ]})) populated
   /\ GetScrape MemStore.client stored_monday populated
       = GetScrape MemStore.client both_ids populated)
  /\
  (snd (GetEvent MemStore.client both_ids_event populated)
     = after MemStore.client (QueryCall true FindEvent_query (Some {[ "$id" := "0x2" ]})) populated
   /\ GetEvent MemStore.client stored_lecture populated
       = GetEvent MemStore.client both_ids_event populated).
Proof.
  split.
  - destruct (proj1 internal_id_takes_priority MemStore.client both_ids populated)
      as (_ & Hcall & Hsame); [discriminate|].
    split; [exact Hcall | exact (Hsame stored_monday eq_refl)].
  - destruct (proj2 internal_id_takes_priority MemStore.client both_ids_event populated)
      as (_ & Hcall & Hsame); [discriminate|].
    split; [exact Hcall | exact (Hsame stored_lecture eq_refl)].
Defined.

Lemma lookup_returns_first_row_witness :
  (length (slice (rows_of (T := Scrape.t) "findScrape" two_scrapes)) = 2%nat /\
   fst (getScrapeWithID (scripted (Ok two_scrapes)) both_ids nowhere)
     = Returns (Some stored_monday, None))
  /\
  (length (slice (rows_of (T := Scrape.t) "findScrapeNoID"
                    (answer_to (lookup_call FindScrapeNoID_query "$id" "7") crowded))) = 2%nat /\
   fst (getScrapeWithoutID MemStore.client monday crowded)
     = Returns (Some stored_monday, None))
  /\
  (length (slice (rows_of (T := Event.t) "findEvent" two_events)) = 2%nat /\
   fst (getEventWithUID (scripted (Ok two_events)) both_ids_event nowhere)
     = Returns (Some stored_lecture, None))
  /\
  (length (slice (rows_of (T := Event.t) "findEvent"
                    (answer_to (lookup_call FindEventNoUID_query "$id" "E42") crowded))) = 2%nat /\
   fst (getEventWithoutUID MemStore.client lecture crowded)
     = Returns (Some stored_lecture, None))
  /\
  (length (slice (rows_of (T := Location.t) "findLocation"
                    (answer_to (lookup_call FindLocationFromSlug_query "$id" "canterbury-GS1")
                       crowded))) = 2%nat /\
   fst (GetLocationFromKentSlug MemStore.client "canterbury-GS1" crowded)
     = Returns (Some stored_grimond, None)).
Proof.
  destruct (lookup_returns_first_row (S := MemStore.t)) as (_ & H2 & _ & H4 & H5).
  destruct (lookup_returns_first_row (S := unit)) as (H1 & _ & H3 & _ & _).
  split; [|split; [|split; [|split]]]; (split; [vm_compute; reflexivity|]).
  - apply (H1 (scripted (Ok two_scrapes)) both_ids nowhere two_scrapes
             (rows_of "findScrape" two_scrapes) stored_monday [stored_tuesday]);
      vm_compute; reflexivity.
  - apply (H2 MemStore.client monday crowded
             (answer_to (lookup_call FindScrapeNoID_query "$id" "7") crowded)
             (rows_of "findScrapeNoID"
                (answer_to (lookup_call FindScrapeNoID_query "$id" "7") crowded))
             stored_monday [stored_tuesday]);
      vm_compute; reflexivity.
  - apply (H3 (scripted (Ok two_events)) both_ids_event nowhere two_events
             (rows_of "findEvent" two_events) stored_lecture [stored_seminar]);
      vm_compute; reflexivity.
  - apply (H4 MemStore.client lecture crowded
             (answer_to (lookup_call FindEventNoUID_query "$id" "E42") crowded)
             (rows_of "findEvent"
                (answer_to (lookup_call FindEventNoUID_query "$id" "E42") crowded))
             stored_lecture [stored_seminar]);
      vm_compute; reflexivity.
  - apply (H5 MemStore.client "canterbury-GS1" crowded
             (answer_to (lookup_call FindLocationFromSlug_query "$id" "canterbury-GS1") crowded)
             (rows_of "findLocation"
                (answer_to (lookup_call FindLocationFromSlug_query "$id" "canterbury-GS1")
                   crowded))
             stored_grimond [stored_annex]);
      vm_compute; reflexivity.
Defined.

Lemma lookups_leave_the_store_unchanged_witness :
  store (snd (GetScrape MemStore.client monday populated)) = store populated /\
  store (snd (GetEvent MemStore.client stored_lecture populated)) = store populated /\
  store (snd (GetLocationFromKentSlug MemStore.client "canterbury-GS1" populated))
    = store populated /\
  store (snd (CountNodesWithField MemStore.client "location.id" populated)) = store populated.
Proof.
  destruct (lookups_leave_the_store_unchanged MemStore.client populated)
    as (Hscrape & Hevent & Hlocation & Hcount).
  split; [|split; [|split]].
  - exact (proj2 (Hscrape monday) MemStore_honours_read_only).
  - exact (proj2 (Hevent stored_lecture) MemStore_honours_read_only).
  - exact (proj2 (Hlocation "canterbury-GS1") MemStore_honours_read_only).
  - exact (proj2 (Hcount "location.id") MemStore_honours_read_only).
Defined.

Lemma upserts_agree_witness :
  (UpsertEvent aborting blank_event nowhere = UpsertScrape aborting blank_scrape nowhere /\
   UpsertEvent aborting blank_event nowhere = UpsertLocation aborting blank_location nowhere)
  /\
  (UpsertEvent MemStore.client blank_event fresh = UpsertScrape MemStore.client blank_scrape fresh /\
   UpsertEvent MemStore.client blank_event fresh
     = UpsertLocation MemStore.client blank_location fresh).
Proof.
  split.
  - destruct (upserts_agree_up_to_record_type aborting nowhere blank_event) as (Hscrape & Hloc).
    split; [apply (Hscrape blank_scrape) | apply (Hloc blank_location)]; reflexivity.
  - destruct (upserts_agree_up_to_record_type MemStore.client fresh blank_event)
      as (Hscrape & Hloc).
    split; [apply (Hscrape blank_scrape) | apply (Hloc blank_location)]; reflexivity.
Defined.

Lemma blank_record_probes_zero_key_witness :
  GetScrape MemStore.client blank_scrape populated
    = (found "findScrapeNoID" None
         (reply MemStore.client
            (QueryCall true FindScrapeNoID_query (Some {[ "$id" := "0" ]})) populated),
       after MemStore.client
         (QueryCall true FindScrapeNoID_query (Some {[ "$id" := "0" ]})) populated)
  /\
  GetEvent MemStore.client blank_event populated
    = (found "findEvent" None
         (reply MemStore.client
            (QueryCall true FindEventNoUID_query (Some {[ "$id" := EmptyString ]})) populated),
       after MemStore.client
         (QueryCall true FindEventNoUID_query (Some {[ "$id" := EmptyString ]})) populated).
Proof.
  split.
  - apply (proj1 blank_record_probes_zero_key MemStore.client blank_scrape populated);
      reflexivity.
  - apply (proj2 blank_record_probes_zero_key MemStore.client blank_event populated);
      reflexivity.
Defined.

(** An abort of the store comes back from every upsert as it is, after one
    call. *)
Example upsert_abort_is_passed_on :
  UpsertEvent aborting lecture nowhere
    = (Returns (None, Some ErrAborted),
       {| store := tt; calls := [set_call (JSON.print (Event_json lecture))] |}) /\
  UpsertScrape aborting monday nowhere
    = (Returns (None, Some ErrAborted),
       {| store := tt; calls := [set_call (JSON.print (Scrape_json monday))] |}) /\
  UpsertLocation aborting grimond nowhere
    = (Returns (None, Some ErrAborted),
       {| store := tt; calls := [set_call (JSON.print (Location_json grimond))] |}).
Proof. split; [|split]; vm_compute; reflexivity. Qed.

(** Upsert, then resolve: the store mints an id, and the lookup by slug
    returns the record with that id. *)
Example upsert_then_resolve :
  fst (UpsertLocation MemStore.client grimond fresh)
    = Returns (Some {| Json := EmptyString; Uids := {[ "blank-0" := "0x1" ]} |}, None) /\
  fst (GetLocationFromKentSlug MemStore.client "canterbury-GS1"
         (snd (UpsertLocation MemStore.client grimond fresh)))
    = Returns (Some stored_grimond, None).
Proof. split; vm_compute; reflexivity. Qed.

Lemma query_failure_witness :
  fst (getScrapeWithID unreachable both_ids nowhere)
    = Returns (None, Some (StoreError "connection refused")) /\
  fst (getEventWithoutUID unreachable lecture nowhere)
    = Returns (None, Some (StoreError "connection refused")) /\
  fst (CountNodesWithField unreachable "location.id" nowhere)
    = Returns (None, Some (StoreError "connection refused")).
Proof.
  destruct (query_failure_is_passed_on unreachable nowhere (StoreError "connection refused"))
    as (H1 & _ & _ & H4 & _ & H6).
  split; [|split].
  - apply (H1 both_ids). reflexivity.
  - apply (H4 lecture). reflexivity.
  - apply (H6 "location.id"). reflexivity.
Defined.

Lemma malformed_body_witness :
  (exists msg, fst (getScrapeWithoutID (scripted (Ok truncated)) monday nowhere)
                 = Returns (None, Some (SyntaxError msg))) /\
  (exists msg, fst (GetLocationFromKentSlug (scripted (Ok truncated)) "canterbury-GS1" nowhere)
                 = Returns (None, Some (SyntaxError msg))) /\
  (exists msg, fst (CountNodesWithField (scripted (Ok truncated)) "location.id" nowhere)
                 = Returns (None, Some (SyntaxError msg))).
Proof.
  destruct (malformed_body_is_a_decode_error (scripted (Ok truncated)) nowhere truncated)
    as (_ & H2 & _ & _ & H5 & H6); [vm_compute; reflexivity|].
  split; [|split].
  - apply (H2 monday). reflexivity.
  - apply (H5 "canterbury-GS1"). reflexivity.
  - apply (H6 "location.id"). reflexivity.
Defined.

End Runs.

(** ** Decoding of envelopes *)

Section Envelopes.

Context {T : Type} `{Unmarshaler T}.

Lemma field_for_single {A : Type} (tag key : string) (f : A) :
  Decode.field_for [(tag, f)] key = if names tag key then Some f else None.
Proof.
  unfold Decode.field_for, names. cbn [List.find fst snd].
  destruct (String.eqb tag key); [reflexivity|].
  destruct (String.eqb (Decode.lower tag) (Decode.lower key)); reflexivity.
Qed.

Lemma fold_members_failed {R : Type} (fields : list (string * (json -> R -> result R)))
    (ms : list (string * json)) (e : error) :
  fold_left (Decode.member_into fields) ms (Err e) = Err e.
Proof. induction ms as [|m ms IH]; [reflexivity|exact IH]. Qed.

Lemma fold_members_lacking {R : Type} (tag : string) (f : json -> R -> result R)
    (ms : list (string * json)) (r : R) :
  lacks tag ms = true ->
  fold_left (Decode.member_into [(tag, f)]) ms (Ok r) = Ok r.
Proof.
  induction ms as [|[k v] ms IH]; [reflexivity|].
  cbn [lacks forallb fst]. intros [Hk Hms]%andb_prop.
  cbn [fold_left Decode.member_into fst snd]. rewrite field_for_single.
  destruct (names tag k); [discriminate|]. exact (IH Hms).
Qed.

Lemma Unmarshal_silent (tag data : string) (v : json) :
  JSON.parse data = Some v ->
  silent_on tag v = true ->
  Unmarshal data (zero : Root tag T) = Ok (Build_Root []).
Proof.
  intros Hparse Hsilent. unfold Unmarshal. rewrite Hparse.
  destruct v; try discriminate; cbn [decode_into Root_Unmarshaler Decode.struct].
  - reflexivity.
  - apply fold_members_lacking. exact Hsilent.
Qed.

Lemma Unmarshal_not_struct (tag data : string) (v : json) :
  JSON.parse data = Some v ->
  not_for_struct v = true ->
  Unmarshal data (zero : Root tag T) = Err (UnmarshalTypeError (Decode.kind_of v) "Root").
Proof.
  intros Hparse Htype. unfold Unmarshal. rewrite Hparse.
  destruct v; try discriminate; reflexivity.
Qed.

Lemma fold_members_not_slice (tag : string) (ms : list (string * json))
    (k : string) (v : json) (acc : result (Root tag T)) :
  In (k, v) ms ->
  names tag k = true ->
  not_for_slice v = true ->
  exists e,
    fold_left (Decode.member_into [(tag, Decode.field slice (fun l _ => Build_Root l))]) ms acc
      = Err e.
Proof.
  intros Hin Hk Htype. revert acc.
  induction ms as [|m ms IH]; [contradiction|]. intros acc.
  destruct Hin as [->|Hin]; [|exact (IH Hin _)].
  destruct acc as [r|e]; cbn [fold_left Decode.member_into fst snd].
  - rewrite field_for_single, Hk.
    assert (Hfield : exists e, Decode.field slice (fun l (_ : Root tag T) => Build_Root l) v r
                               = Err e)
      by (destruct v; try discriminate; eexists; reflexivity).
    destruct Hfield as [e ->]. exists e. apply fold_members_failed.
  - exists e. apply fold_members_failed.
Qed.

Lemma Unmarshal_key_not_slice (tag data : string) (ms : list (string * json))
    (k : string) (v : json) :
  JSON.parse data = Some (JObject ms) ->
  In (k, v) ms ->
  names tag k = true ->
  not_for_slice v = true ->
  exists e, Unmarshal data (zero : Root tag T) = Err e.
Proof.
  intros Hparse Hin Hk Htype. unfold Unmarshal. rewrite Hparse.
  cbn [decode_into Root_Unmarshaler Decode.struct].
  exact (fold_members_not_slice tag ms k v _ Hin Hk Htype).
Qed.

End Envelopes.

(** ** Decimal integers *)

Section Decimals.

Lemma Itoa_reads_back (z : Z) :
  NilZero.int_of_string (Itoa z) = Some (Z.to_int z).
Proof.
  unfold Itoa. apply NilZero.isi.
  - destruct z as [|p|p]; cbn; try discriminate.
    intros [= Hnil]. exact (DecimalPos.Unsigned.to_uint_nonnil p Hnil).
  - destruct z as [|p|p]; cbn; try discriminate.
    intros [= Hnil]. exact (DecimalPos.Unsigned.to_uint_nonnil p Hnil).
Qed.

Lemma Itoa_inj (z z' : Z) : Itoa z = Itoa z' -> z = z'.
Proof.
  intros Hsame. apply DecimalZ.to_int_inj.
  assert (Hread : Some (Z.to_int z) = Some (Z.to_int z')).
  { rewrite <- !Itoa_reads_back, Hsame. reflexivity. }
  congruence.
Qed.

Lemma digits_of_uint (d : Decimal.uint) :
  all_digits (NilEmpty.string_of_uint d) = true.
Proof.
  unfold all_digits. induction d; cbn [NilEmpty.string_of_uint list_ascii_of_string forallb];
    try reflexivity; rewrite IHd; reflexivity.
Qed.

Lemma uint_nonempty (d : Decimal.uint) :
  d <> Decimal.Nil -> JSON.nonempty (NilEmpty.string_of_uint d) = true.
Proof. destruct d; [contradiction| | | | | | | | | |]; reflexivity. Qed.

Lemma ParseInt64_Itoa (z : Z) :
  (- 2 ^ 63 <= z < 2 ^ 63)%Z -> ParseInt64 (Itoa z) = Some z.
Proof.
  intros Hrange. unfold ParseInt64.
  assert (Hdigits : JSON.nonempty (match Itoa z with String "-" r => r | _ => Itoa z end)
                    && all_digits (match Itoa z with String "-" r => r | _ => Itoa z end) = true).
  { unfold Itoa. destruct z as [|p|p]; [reflexivity| |].
    - cbn [Z.to_int NilZero.string_of_int].
      pose proof (DecimalPos.Unsigned.to_uint_nonnil p) as Hnonnil.
      pose proof (digits_of_uint (Pos.to_uint p)) as Hall.
      pose proof (uint_nonempty _ Hnonnil) as Hne.
      unfold NilZero.string_of_uint.
      destruct (Pos.to_uint p) eqn:Hd; [contradiction| | | | | | | | | |];
        cbn [NilEmpty.string_of_uint] in *; rewrite Hall; reflexivity.
    - cbn [Z.to_int NilZero.string_of_int].
      pose proof (DecimalPos.Unsigned.to_uint_nonnil p) as Hnonnil.
      pose proof (digits_of_uint (Pos.to_uint p)) as Hall.
      pose proof (uint_nonempty _ Hnonnil) as Hne.
      unfold NilZero.string_of_uint.
      destruct (Pos.to_uint p) eqn:Hd; [contradiction| | | | | | | | | |];
        cbn [NilEmpty.string_of_uint] in *; rewrite Hall; reflexivity. }
  rewrite Hdigits, Itoa_reads_back. cbn [mbind option_bind].
  rewrite DecimalZ.of_to.
  destruct (Z.leb_spec (- 2 ^ 63) z); [|lia].
  destruct (Z.ltb_spec z (2 ^ 63)); [reflexivity|lia].
Qed.

End Decimals.

Section Numbers.

Import Chars.

#[local] Arguments String.append : simpl nomatch.

Lemma span_digits_uint (d : Decimal.uint) (c : ascii) (r : string) :
  is_digit c = false ->
  JSON.span_digits (NilEmpty.string_of_uint d +:+ String c r)
    = (NilEmpty.string_of_uint d, String c r).
Proof.
  intros Hc. induction d; simpl NilEmpty.string_of_uint; simpl String.append.
  - cbn [JSON.span_digits]. rewrite Hc. reflexivity.
  - cbn [JSON.span_digits]. change (is_digit "0") with true. cbn iota. rewrite IHd. reflexivity.
  - cbn [JSON.span_digits]. change (is_digit "1") with true. cbn iota. rewrite IHd. reflexivity.
  - cbn [JSON.span_digits]. change (is_digit "2") with true. cbn iota. rewrite IHd. reflexivity.
  - cbn [JSON.span_digits]. change (is_digit "3") with true. cbn iota. rewrite IHd. reflexivity.
  - cbn [JSON.span_digits]. change (is_digit "4") with true. cbn iota. rewrite IHd. reflexivity.
  - cbn [JSON.span_digits]. change (is_digit "5") with true. cbn iota. rewrite IHd. reflexivity.
  - cbn [JSON.span_digits]. change (is_digit "6") with true. cbn iota. rewrite IHd. reflexivity.
  - cbn [JSON.span_digits]. change (is_digit "7") with true. cbn iota. rewrite IHd. reflexivity.
  - cbn [JSON.span_digits]. change (is_digit "8") with true. cbn iota. rewrite IHd. reflexivity.
  - cbn [JSON.span_digits]. change (is_digit "9") with true. cbn iota. rewrite IHd. reflexivity.
Qed.

Lemma to_uint_head (p : positive) :
  match Pos.to_uint p with
  | Decimal.Nil | Decimal.D0 _ => False
  | _ => True
  end.
Proof.
  pose proof (DecimalPos.Unsigned.to_uint_nonnil p) as Hnonnil.
  pose proof (DecimalPos.Unsigned.to_uint_nonzero p) as Hnonzero.
  assert (Hnorm : Decimal.unorm (Pos.to_uint p) = Pos.to_uint p).
  { rewrite <- DecimalPos.Unsigned.to_of, DecimalPos.Unsigned.of_to. reflexivity. }
  destruct (Pos.to_uint p) as [|d|d|d|d|d|d|d|d|d|d] eqn:Hd; try exact I.
  - apply Hnonnil. reflexivity.
  - unfold Decimal.unorm in Hnorm.
    destruct (Decimal.nzhead (Decimal.D0 d)) eqn:Hhead.
    + apply Hnonzero. symmetry. exact Hnorm.
    + exact (DecimalFacts.nzhead_nonzero (Decimal.D0 d) d (eq_trans Hhead Hnorm)).
    + discriminate.
    + discriminate.
    + discriminate.
    + discriminate.
    + discriminate.
    + discriminate.
    + discriminate.
    + discriminate.
    + discriminate.
Qed.

Lemma append_empty_r (s : string) : s +:+ EmptyString = s.
Proof. induction s as [|c s IH]; [reflexivity|]. simpl. rewrite IH. reflexivity. Qed.

(** After an integer that [Itoa] wrote, a closing brace ends the number. *)
Lemma scan_number_Itoa (z : Z) (r : string) :
  JSON.scan_number (Itoa z +:+ String "}" r) = Some (Itoa z, String "}" r).
Proof.
  assert (Huint : forall p,
             JSON.scan_number (NilEmpty.string_of_uint (Pos.to_uint p) +:+ String "}" r)
             = Some (NilEmpty.string_of_uint (Pos.to_uint p), String "}" r)).
  { intros p. pose proof (to_uint_head p) as Hhead.
    destruct (Pos.to_uint p) as [|d|d|d|d|d|d|d|d|d|d]; try contradiction;
      simpl NilEmpty.string_of_uint; simpl String.append;
      unfold JSON.scan_number, JSON.scan_int_part;
      cbn [Ascii.eqb Bool.eqb Chars.is_digit Chars.code N_of_ascii N_of_digits
           N.leb N.compare N.add N.mul Pos.compare Pos.compare_cont Pos.add Pos.mul
           Pos.succ andb orb];
      rewrite (span_digits_uint d "}" r eq_refl); simpl;
      rewrite !append_empty_r; reflexivity. }
  destruct z as [|p|p].
  - reflexivity.
  - unfold Itoa. cbn [Z.to_int NilZero.string_of_int]. unfold NilZero.string_of_uint.
    pose proof (to_uint_head p) as Hhead. specialize (Huint p).
    destruct (Pos.to_uint p); try contradiction; exact Huint.
  - unfold Itoa. cbn [Z.to_int NilZero.string_of_int]. unfold NilZero.string_of_uint.
    pose proof (to_uint_head p) as Hhead. specialize (Huint p).
    destruct (Pos.to_uint p) as [|d|d|d|d|d|d|d|d|d|d]; try contradiction;
      simpl NilEmpty.string_of_uint in *; simpl String.append in *;
      unfold JSON.scan_number in *; unfold JSON.scan_int_part in *;
      cbn [Ascii.eqb Bool.eqb Chars.is_digit Chars.code N_of_ascii N_of_digits
           N.leb N.compare N.add N.mul Pos.compare Pos.compare_cont Pos.add Pos.mul
           Pos.succ andb orb] in *;
      rewrite (span_digits_uint d "}" r eq_refl) in *; simpl;
      rewrite !append_empty_r; reflexivity.
Qed.

Lemma parse_value_number (fuel : nat) (depth : N) (c : ascii) (s lit rest : string) :
  Ascii.eqb c "-" || is_digit c = true ->
  JSON.scan_number (String c s) = Some (lit, rest) ->
  JSON.parse_value (S fuel) depth (String c s) = Some (JNumber lit, rest).
Proof.
  intros Hc Hscan.
  transitivity ('(l, r') ← JSON.scan_number (String c s); Some (JNumber l, r')).
  - destruct c as [[] [] [] [] [] [] [] []]; vm_compute in Hc; try discriminate Hc;
      reflexivity.
  - rewrite Hscan. reflexivity.
Qed.

Lemma Itoa_head (z : Z) :
  exists c s, Itoa z = String c s /\ Ascii.eqb c "-" || is_digit c = true.
Proof.
  destruct z as [|p|p].
  - exists "0"%char, EmptyString. split; reflexivity.
  - unfold Itoa. cbn [Z.to_int NilZero.string_of_int]. unfold NilZero.string_of_uint.
    pose proof (to_uint_head p) as Hhead.
    destruct (Pos.to_uint p); try contradiction; simpl NilEmpty.string_of_uint;
      eexists _, _; split; reflexivity.
  - unfold Itoa. cbn [Z.to_int NilZero.string_of_int].
    eexists _, _; split; reflexivity.
Qed.

Lemma parse_value_Itoa (fuel : nat) (depth : N) (z : Z) (r : string) :
  JSON.parse_value (S fuel) depth (Itoa z +:+ String "}" r)
    = Some (JNumber (Itoa z), String "}" r).
Proof.
  pose proof (scan_number_Itoa z r) as Hscan.
  destruct (Itoa_head z) as (c & s & Hz & Hc). rewrite Hz in Hscan |- *.
  simpl String.append in *. apply parse_value_number; assumption.
Qed.

End Numbers.

Section Parsing.

Import Chars JSON.

#[local] Arguments String.append : simpl nomatch.

(** One step of [parse_value]. *)
Lemma parse_value_step (fuel' : nat) (depth : N) (s : string) :
  JSON.parse_value (S fuel') depth s =

      let parse_elements :=
        fix parse_elements (n : nat) (s : string) : option (list json * string) :=
          match n with
          | O => None
          | S n' =>
              '(v, r) ← JSON.parse_value fuel' (depth + 1)%N s;
              match skip_space r with
              | String c r' =>
                  if Ascii.eqb c "," then
                    '(vs, rest) ← parse_elements n' r'; Some (v :: vs, rest)
                  else if Ascii.eqb c "]" then Some ([v], r')
                  else None
              | EmptyString => None
              end
          end in
      let parse_members :=
        fix parse_members (n : nat) (s : string) : option (list (string * json) * string) :=
          match n with
          | O => None
          | S n' =>
              match skip_space s with
              | String q r0 =>
                  if Ascii.eqb q dquote then
                    '(k, r1) ← scan_string r0;
                    match skip_space r1 with
                    | String colon r2 =>
                        if Ascii.eqb colon ":" then
                          '(v, r3) ← JSON.parse_value fuel' (depth + 1)%N r2;
                          match skip_space r3 with
                          | String c r4 =>
                              if Ascii.eqb c "," then
                                '(ms, rest) ← parse_members n' r4; Some ((k, v) :: ms, rest)
                              else if Ascii.eqb c "}" then Some ([(k, v)], r4)
                              else None
                          | EmptyString => None
                          end
                        else None
                    | EmptyString => None
                    end
                  else None
              | EmptyString => None
              end
          end in
      match skip_space s with
      | EmptyString => None
      | String c r =>
          if Ascii.eqb c "n" then r' ← expect "ull" r; Some (JNull, r')
          else if Ascii.eqb c "t" then r' ← expect "rue" r; Some (JBool true, r')
          else if Ascii.eqb c "f" then r' ← expect "alse" r; Some (JBool false, r')
          else if Ascii.eqb c dquote then '(str, r') ← scan_string r; Some (JString str, r')
          else if Ascii.eqb c "[" then
            if (maxNestingDepth <=? depth)%N then None
            else
              match skip_space r with
              | String d r' =>
                  if Ascii.eqb d "]" then Some (JArray [], r')
                  else '(vs, rest) ← parse_elements fuel' r; Some (JArray vs, rest)
              | EmptyString => None
              end
          else if Ascii.eqb c "{" then
            if (maxNestingDepth <=? depth)%N then None
            else
              match skip_space r with
              | String d r' =>
                  if Ascii.eqb d "}" then Some (JObject [], r')
                  else '(ms, rest) ← parse_members fuel' r; Some (JObject ms, rest)
              | EmptyString => None
              end
          else if Ascii.eqb c "-" || is_digit c then
            '(lit, r') ← scan_number (String c r); Some (JNumber lit, r')
          else None
      end.
Proof. reflexivity. Qed.

Lemma parse_count_body (n : Z) :
  JSON.parse (count_body n)
    = Some (JObject [("nodeCount", JArray [JObject [("nodeCount", JNumber (Itoa n))]])]).
Proof.
  unfold JSON.parse, count_body, Examples.quoted.
  simpl String.append. simpl String.length.
  rewrite parse_value_step. head_step.
  rewrite parse_value_step. head_step.
  rewrite parse_value_step. head_step.
  rewrite parse_value_Itoa. reflexivity.
Qed.

End Parsing.

(** ** More properties of the lookups *)

Section MoreProperties.

Context {S : Type}.
Context `{Unmarshaler Scrape.t, Unmarshaler Event.t, Unmarshaler Location.t}.
Context `{Marshaler Scrape.t, Marshaler Event.t, Marshaler Location.t}.

Implicit Types (c : Dgraph S) (w : World S) (l : Lookup).

Lemma run_unfold c l w :
  run c l w =
    (match l with
     | ScrapeWithID scrape =>
         shape (found (T := Scrape.t) "findScrape"
                  (Some (Errorf ("No Scrape found with id " +:+ Scrape.UID scrape)))
                  (reply c (call_of l) w))
     | ScrapeWithoutID _ =>
         shape (found (T := Scrape.t) "findScrapeNoID" None (reply c (call_of l) w))
     | EventWithUID event =>
         shape (found (T := Event.t) "findEvent"
                  (Some (Errorf ("No Event found with uid " +:+ Event.UID event)))
                  (reply c (call_of l) w))
     | EventWithoutUID _ =>
         shape (found (T := Event.t) "findEvent" None (reply c (call_of l) w))
     | LocationFromKentSlug _ =>
         shape (found (T := Location.t) "findLocation" None (reply c (call_of l) w))
     | NodesWithField _ => shape (counted (reply c (call_of l) w))
     end,
     after c (call_of l) w).
Proof.
  destruct l; unfold run.
  - rewrite getScrapeWithID_run. reflexivity.
  - rewrite getScrapeWithoutID_run. reflexivity.
  - rewrite getEventWithUID_run. reflexivity.
  - rewrite getEventWithoutUID_run. reflexivity.
  - rewrite GetLocationFromKentSlug_run. reflexivity.
  - rewrite CountNodesWithField_run. reflexivity.
Qed.

Lemma found_decoded {T : Type} `{Unmarshaler T} (tag : string) missing resp
    (d : result (Root tag T)) :
  Unmarshal (Json resp) (zero : Root tag T) = d ->
  found tag missing (Ok resp) =
    match d with
    | Err e => Returns (None, Some e)
    | Ok r =>
        match slice r with
        | [] => Returns (None, missing)
        | x :: _ => Returns (Some x, None)
        end
    end.
Proof. intros <-. reflexivity. Qed.

Lemma counted_decoded resp (d : result (Root "nodeCount" NodeCount.t)) :
  Unmarshal (Json resp) (zero : Root "nodeCount" NodeCount.t) = d ->
  counted (Ok resp) =
    match d with
    | Err e => Returns (None, Some e)
    | Ok r =>
        match slice r with
        | [] => Panics "runtime error: index out of range [0] with length 0"
        | x :: _ => Returns (Some (NodeCount.NodeCount x), None)
        end
    end.
Proof. intros <-. reflexivity. Qed.

(** X4: a body that is [null], or an object whose keys are ASCII and none
    of which is the expected key (in any case of its letters), is read as
    a list of no rows and not as a malformed answer: a lookup by internal
    id reports that nothing was found, a lookup by external id returns
    neither a record nor an error, and [CountNodesWithField] panics. *)
Theorem silent_body_reads_as_no_rows :
  forall c l w resp v,
    reply c (call_of l) w = Ok resp ->
    JSON.parse (Json resp) = Some v ->
    keys_are_ascii v = true ->
    silent_on (tag_of l) v = true ->
    fst (run c l w) =
      match l with
      | ScrapeWithID scrape =>
          Failed (Errorf ("No Scrape found with id " +:+ Scrape.UID scrape))
      | EventWithUID event =>
          Failed (Errorf ("No Event found with uid " +:+ Event.UID event))
      | ScrapeWithoutID _ | EventWithoutUID _ | LocationFromKentSlug _ => Absent
      | NodesWithField _ => Panicked "runtime error: index out of range [0] with length 0"
      end.
Proof.
  intros c l w resp v Hreply Hparse _ Hsilent.
  rewrite run_unfold, Hreply. cbn [fst].
  destruct l; cbn [tag_of] in Hsilent.
  - rewrite (found_decoded _ _ _ _ (Unmarshal_silent _ _ _ Hparse Hsilent)). reflexivity.
  - rewrite (found_decoded _ _ _ _ (Unmarshal_silent _ _ _ Hparse Hsilent)). reflexivity.
  - rewrite (found_decoded _ _ _ _ (Unmarshal_silent _ _ _ Hparse Hsilent)). reflexivity.
  - rewrite (found_decoded _ _ _ _ (Unmarshal_silent _ _ _ Hparse Hsilent)). reflexivity.
  - rewrite (found_decoded _ _ _ _ (Unmarshal_silent _ _ _ Hparse Hsilent)). reflexivity.
  - rewrite (counted_decoded _ _ (Unmarshal_silent _ _ _ Hparse Hsilent)). reflexivity.
Qed.

Lemma run_decode_error c l w resp (e : error) :
  reply c (call_of l) w = Ok resp ->
  (forall (T : Type) (U : Unmarshaler T),
      Unmarshal (Json resp) (zero : Root (tag_of l) T) = Err e) ->
  fst (run c l w) = Failed e.
Proof.
  intros Hreply Hdec. rewrite run_unfold, Hreply. cbn [fst].
  destruct l; cbn [tag_of] in Hdec.
  - rewrite (found_decoded _ _ _ _ (Hdec _ _)). reflexivity.
  - rewrite (found_decoded _ _ _ _ (Hdec _ _)). reflexivity.
  - rewrite (found_decoded _ _ _ _ (Hdec _ _)). reflexivity.
  - rewrite (found_decoded _ _ _ _ (Hdec _ _)). reflexivity.
  - rewrite (found_decoded _ _ _ _ (Hdec _ _)). reflexivity.
  - rewrite (counted_decoded _ _ (Hdec _ _)). reflexivity.
Qed.

Lemma run_decode_fails c l w resp :
  reply c (call_of l) w = Ok resp ->
  (forall (T : Type) (U : Unmarshaler T),
      exists e, Unmarshal (Json resp) (zero : Root (tag_of l) T) = Err e) ->
  exists e, fst (run c l w) = Failed e.
Proof.
  intros Hreply Hdec. rewrite run_unfold, Hreply. cbn [fst].
  destruct l; cbn [tag_of] in Hdec.
  - destruct (Hdec Scrape.t _) as [e He]. exists e.
    rewrite (found_decoded _ _ _ _ He). reflexivity.
  - destruct (Hdec Scrape.t _) as [e He]. exists e.
    rewrite (found_decoded _ _ _ _ He). reflexivity.
  - destruct (Hdec Event.t _) as [e He]. exists e.
    rewrite (found_decoded _ _ _ _ He). reflexivity.
  - destruct (Hdec Event.t _) as [e He]. exists e.
    rewrite (found_decoded _ _ _ _ He). reflexivity.
  - destruct (Hdec Location.t _) as [e He]. exists e.
    rewrite (found_decoded _ _ _ _ He). reflexivity.
  - destruct (Hdec NodeCount.t _) as [e He]. exists e.
    rewrite (counted_decoded _ _ He). reflexivity.
Qed.

(** X5: a body that is JSON of the wrong type is a decode error for every
    lookup, [CountNodesWithField] included, and never a panic nor a silent
    result: when the body is neither an object nor [null], the lookup
    returns a nil result with a type error of the decoder; and when some
    member for the expected key holds something else than a list or
    [null], it returns a nil result with an error. *)
Theorem wrong_type_is_a_decode_error :
  forall c l w resp,
    reply c (call_of l) w = Ok resp ->
    (forall v,
        JSON.parse (Json resp) = Some v ->
        not_for_struct v = true ->
        exists value gotype,
          fst (run c l w) = Failed (UnmarshalTypeError value gotype))
    /\
    (forall ms k v,
        JSON.parse (Json resp) = Some (JObject ms) ->
        In (k, v) ms ->
        names (tag_of l) k = true ->
        not_for_slice v = true ->
        exists e, fst (run c l w) = Failed e).
Proof.
  intros c l w resp Hreply. split.
  - intros v Hparse Htype. eexists _, _.
    apply (run_decode_error c l w resp _ Hreply).
    intros T U. exact (Unmarshal_not_struct _ _ _ Hparse Htype).
  - intros ms k v Hparse Hin Hk Htype.
    apply (run_decode_fails c l w resp Hreply).
    intros T U. exact (Unmarshal_key_not_slice _ _ _ _ _ Hparse Hin Hk Htype).
Qed.

(** X6: with a client that keeps dgo's contract (it is not nil, and it
    answers every call with a response or with an error),
    [CountNodesWithField] panics exactly when the query succeeds and its
    answer decodes to an empty list of aggregates; when there is at least
    one aggregate, the count of the first one is returned, with no
    error. *)
Theorem count_panics_exactly_without_aggregates :
  forall c (f : string) w,
    ((exists msg, fst (CountNodesWithField c f w) = Panics msg) <->
     (exists resp (r : Root "nodeCount" NodeCount.t),
         reply c count_call w = Ok resp /\
         Unmarshal (Json resp) zero = Ok r /\
         slice r = []))
    /\
    (forall resp (r : Root "nodeCount" NodeCount.t) x rest,
        reply c count_call w = Ok resp ->
        Unmarshal (Json resp) zero = Ok r ->
        slice r = x :: rest ->
        fst (CountNodesWithField c f w) = Returns (Some (NodeCount.NodeCount x), None)).
Proof.
  intros c f w. rewrite CountNodesWithField_run. cbn [fst]. split; [split|].
  - intros [msg Hpanic]. unfold counted in Hpanic.
    destruct (reply c count_call w) as [resp|e]; [|discriminate].
    destruct (Unmarshal (Json resp) zero) as [r|e] eqn:Hdec; [|discriminate].
    destruct (slice r) eqn:Hrows; [|discriminate].
    exists resp, r. split; [reflexivity|]. split; [exact Hdec|exact Hrows].
  - intros (resp & r & Hreply & Hdec & Hrows).
    rewrite Hreply, (counted_decoded _ _ Hdec), Hrows. eexists. reflexivity.
  - intros resp r x rest Hreply Hdec Hrows.
    rewrite Hreply, (counted_decoded _ _ Hdec), Hrows. reflexivity.
Qed.

Lemma Unmarshal_count_body (n : Z) :
  (- 2 ^ 63 <= n < 2 ^ 63)%Z ->
  Unmarshal (count_body n) (zero : Root "nodeCount" NodeCount.t)
    = Ok (Build_Root [{| NodeCount.NodeCount := n |}]).
Proof.
  intros Hrange. unfold Unmarshal. rewrite parse_count_body.
  cbn [decode_into Root_Unmarshaler Decode.struct fold_left Decode.member_into fst snd].
  rewrite field_for_single. change (names "nodeCount" "nodeCount") with true. cbn iota.
  unfold Decode.field at 1.
  cbn [decode_into slice_Unmarshaler Decode.elements NodeCount_Unmarshaler Decode.struct
       fold_left Decode.member_into fst snd zero].
  rewrite field_for_single. change (names "nodeCount" "nodeCount") with true. cbn iota.
  unfold Decode.field at 1. cbn [decode_into int_Unmarshaler].
  rewrite (ParseInt64_Itoa n Hrange). reflexivity.
Qed.

(** X7: answered with the body that reports a count of [n], for any [n]
    that fits a 64-bit integer, [CountNodesWithField] returns [n] and no
    error. *)
Theorem count_is_read_from_the_expected_body :
  forall c (f : string) w resp (n : Z),
    reply c count_call w = Ok resp ->
    Json resp = count_body n ->
    (- 2 ^ 63 <= n < 2 ^ 63)%Z ->
    fst (CountNodesWithField c f w) = Returns (Some n, None).
Proof.
  intros c f w resp n Hreply Hbody Hrange.
  rewrite CountNodesWithField_run, Hreply. cbn [fst].
  rewrite (counted_decoded resp (Ok (Build_Root [{| NodeCount.NodeCount := n |}]))).
  - reflexivity.
  - rewrite Hbody. exact (Unmarshal_count_body n Hrange).
Qed.

Lemma lookup_call_inj (q var value value' : string) :
  lookup_call q var value = lookup_call q var value' -> value = value'.
Proof.
  intros Hcall.
  pose (bound := fun call : Call =>
                   match call with
                   | QueryCall _ _ (Some m) => m !! var
                   | _ => None
                   end).
  assert (Hlook : bound (lookup_call q var value) = bound (lookup_call q var value'))
    by (rewrite Hcall; reflexivity).
  unfold bound, lookup_call in Hlook. rewrite !lookup_singleton_eq in Hlook. congruence.
Qed.

(** X8: without an internal id, the external id alone decides the lookup:
    two scrapes (two events) with empty internal ids and the same external
    id get the same outcome, two scrapes with different external ids are
    never looked up by the same call, and the decimal string the call
    carries reads back as the external id. *)
Theorem external_id_alone_decides_the_probe :
  (forall c w (scrape scrape' : Scrape.t),
      Scrape.UID scrape = EmptyString ->
      Scrape.UID scrape' = EmptyString ->
      Scrape.ID scrape = Scrape.ID scrape' ->
      GetScrape c scrape w = GetScrape c scrape' w)
  /\
  (forall c w (event event' : Event.t),
      Event.UID event = EmptyString ->
      Event.UID event' = EmptyString ->
      Event.ID event = Event.ID event' ->
      GetEvent c event w = GetEvent c event' w)
  /\
  (forall scrape scrape' : Scrape.t,
      call_of (ScrapeWithoutID scrape) = call_of (ScrapeWithoutID scrape') ->
      Scrape.ID scrape = Scrape.ID scrape')
  /\
  (forall scrape : Scrape.t,
      (- 2 ^ 63 <= Scrape.ID scrape < 2 ^ 63)%Z ->
      ParseInt64 (Itoa (Scrape.ID scrape)) = Some (Scrape.ID scrape)).
Proof.
  split; [|split; [|split]].
  - intros c w scrape scrape' Hunset Hunset' Hsame.
    rewrite (GetScrape_without_id c scrape Hunset), (GetScrape_without_id c scrape' Hunset').
    rewrite !getScrapeWithoutID_run, Hsame. reflexivity.
  - intros c w event event' Hunset Hunset' Hsame.
    rewrite (GetEvent_without_uid c event Hunset), (GetEvent_without_uid c event' Hunset').
    rewrite !getEventWithoutUID_run, Hsame. reflexivity.
  - intros scrape scrape' Hcall. cbn [call_of] in Hcall.
    apply Itoa_inj. exact (lookup_call_inj _ _ _ _ Hcall).
  - intros scrape Hrange. exact (ParseInt64_Itoa _ Hrange).
Qed.

Lemma found_shape {T : Type} `{Unmarshaler T} (tag : string) (missing : option error) res :
  shape (found (T := T) tag missing res) = Found \/
  (exists e, shape (found (T := T) tag missing res) = Failed e) \/
  (missing = None /\ shape (found (T := T) tag missing res) = Absent).
Proof.
  unfold found. destruct res as [resp|e]; [|right; left; eexists; reflexivity].
  destruct (Unmarshal (Json resp) zero) as [[rows]|e]; [|right; left; eexists; reflexivity].
  destruct rows as [|x rows]; [|left; reflexivity].
  destruct missing as [e|]; [right; left; eexists; reflexivity|].
  right; right. split; reflexivity.
Qed.

(** X9: with a client that keeps dgo's contract (it is not nil, and it
    answers every call with a response or with an error), no lookup
    returns both a result and an error, and a lookup by internal id never
    returns neither: exactly one of its two results is nil. *)
Theorem results_are_exclusive :
  forall c w,
    (forall l e, fst (run c l w) <> FoundAndFailed e)
    /\
    (forall scrape : Scrape.t,
        fst (run c (ScrapeWithID scrape) w) = Found \/
        exists e, fst (run c (ScrapeWithID scrape) w) = Failed e)
    /\
    (forall event : Event.t,
        fst (run c (EventWithUID event) w) = Found \/
        exists e, fst (run c (EventWithUID event) w) = Failed e).
Proof.
  intros c w. split; [|split].
  - intros l e. rewrite run_unfold. cbn [fst].
    destruct l as [scrape|scrape|event|event|slug|f];
      try (match goal with
           | |- shape (@found ?T ?U ?tag ?missing ?res) <> _ =>
               destruct (@found_shape T U tag missing res) as [Hs|[[e' Hs]|[_ Hs]]];
               rewrite Hs; discriminate
           end).
    unfold counted. intros Hboth.
    destruct (reply c _ w) as [resp|e']; [|discriminate Hboth].
    destruct (Unmarshal (Json resp) zero) as [[rows]|e']; [|discriminate Hboth].
    destruct rows; discriminate Hboth.
  - intros scrape. rewrite run_unfold. cbn [fst].
    match goal with
    | |- shape (@found ?T ?U ?tag ?missing ?res) = _ \/ _ =>
        destruct (@found_shape T U tag missing res) as [Hs|[[e' Hs]|[Hnone _]]]
    end; [left; exact Hs|right; exists e'; exact Hs|discriminate].
  - intros event. rewrite run_unfold. cbn [fst].
    match goal with
    | |- shape (@found ?T ?U ?tag ?missing ?res) = _ \/ _ =>
        destruct (@found_shape T U tag missing res) as [Hs|[[e' Hs]|[Hnone _]]]
    end; [left; exact Hs|right; exists e'; exact Hs|discriminate].
Qed.

Lemma reply_same_store c call w w' :
  store w = store w' -> reply c call w = reply c call w'.
Proof. unfold reply. intros ->. reflexivity. Qed.

Lemma store_after_lookup c l w :
  honours_read_only c -> store (snd (run c l w)) = store w.
Proof.
  intros Hro. rewrite run_unfold. cbn [snd after store].
  destruct l; apply Hro.
Qed.

(** X10: with a client that honours read-only transactions, a lookup does
    not change what the next lookup returns: after any of the six lookups,
    [GetScrape], [GetEvent], [GetLocationFromKentSlug] and
    [CountNodesWithField] each return what they would have returned
    without it. *)
Theorem lookups_do_not_disturb_each_other :
  forall c, honours_read_only c ->
  forall (first : Lookup) w,
    (forall scrape : Scrape.t,
        fst (GetScrape c scrape (snd (run c first w))) = fst (GetScrape c scrape w))
    /\
    (forall event : Event.t,
        fst (GetEvent c event (snd (run c first w))) = fst (GetEvent c event w))
    /\
    (forall slug : string,
        fst (GetLocationFromKentSlug c slug (snd (run c first w)))
          = fst (GetLocationFromKentSlug c slug w))
    /\
    (forall f : string,
        fst (CountNodesWithField c f (snd (run c first w)))
          = fst (CountNodesWithField c f w)).
Proof.
  intros c Hro first w.
  pose proof (store_after_lookup c first w Hro) as Hstore.
  split; [|split; [|split]].
  - intros scrape.
    destruct (String.eqb_spec (Scrape.UID scrape) EmptyString) as [Hunset|Hset].
    + rewrite (GetScrape_without_id c scrape Hunset), !getScrapeWithoutID_run. cbn [fst].
      rewrite (reply_same_store c _ _ _ Hstore). reflexivity.
    + rewrite (GetScrape_with_id c scrape Hset), !getScrapeWithID_run. cbn [fst].
      rewrite (reply_same_store c _ _ _ Hstore). reflexivity.
  - intros event.
    destruct (String.eqb_spec (Event.UID event) EmptyString) as [Hunset|Hset].
    + rewrite (GetEvent_without_uid c event Hunset), !getEventWithoutUID_run. cbn [fst].
      rewrite (reply_same_store c _ _ _ Hstore). reflexivity.
    + rewrite (GetEvent_with_uid c event Hset), !getEventWithUID_run. cbn [fst].
      rewrite (reply_same_store c _ _ _ Hstore). reflexivity.
  - intros slug. rewrite !GetLocationFromKentSlug_run. cbn [fst].
    rewrite (reply_same_store c _ _ _ Hstore). reflexivity.
  - intros f. rewrite !CountNodesWithField_run. cbn [fst].
    rewrite (reply_same_store c _ _ _ Hstore). reflexivity.
Qed.

End MoreProperties.

(** ** More runs on the example data *)

Section MoreRuns.

Import Sample Examples.

Lemma silent_body_witness :
  fst (run (scripted (Ok no_key)) (ScrapeWithID both_ids) nowhere)
    = Failed (Errorf "No Scrape found with id 0x3") /\
  fst (run (scripted (Ok other_keys)) (LocationFromKentSlug "canterbury-GS1") nowhere)
    = Absent /\
  fst (run (scripted (Ok other_keys)) (NodesWithField "location.id") nowhere)
    = Panicked "runtime error: index out of range [0] with length 0".
Proof.
  split; [|split].
  - apply (silent_body_reads_as_no_rows (scripted (Ok no_key)) (ScrapeWithID both_ids)
             nowhere no_key (JObject [])); vm_compute; reflexivity.
  - apply (silent_body_reads_as_no_rows (scripted (Ok other_keys))
             (LocationFromKentSlug "canterbury-GS1") nowhere other_keys
             (JObject [("data", JArray []); ("extensions", JObject [])]));
      vm_compute; reflexivity.
  - apply (silent_body_reads_as_no_rows (scripted (Ok other_keys))
             (NodesWithField "location.id") nowhere other_keys
             (JObject [("data", JArray []); ("extensions", JObject [])]));
      vm_compute; reflexivity.
Defined.

Lemma wrong_type_witness :
  (exists value gotype,
      fst (run (scripted (Ok bare_array)) (EventWithoutUID lecture) nowhere)
        = Failed (UnmarshalTypeError value gotype))
  /\
  (exists e,
      fst (run (scripted (Ok (rows_as_number "nodeCount"))) (NodesWithField "location.id")
             nowhere)
        = Failed e).
Proof.
  split.
  - apply (proj1 (wrong_type_is_a_decode_error (scripted (Ok bare_array))
                    (EventWithoutUID lecture) nowhere bare_array eq_refl) (JArray []));
      vm_compute; reflexivity.
  - apply (proj2 (wrong_type_is_a_decode_error (scripted (Ok (rows_as_number "nodeCount")))
                    (NodesWithField "location.id") nowhere (rows_as_number "nodeCount") eq_refl)
             [("extensions", JObject []); ("nodeCount", JNumber "3")]
             "nodeCount" (JNumber "3"));
      [vm_compute; reflexivity | right; left; reflexivity
      | vm_compute; reflexivity | vm_compute; reflexivity].
Defined.

Lemma count_panics_witness :
  (exists msg,
      fst (CountNodesWithField (scripted (Ok no_aggregate)) "location.id" nowhere) = Panics msg)
  /\
  fst (CountNodesWithField MemStore.client "location.id" populated) = Returns (Some 1%Z, None).
Proof.
  split.
  - apply (proj1 (count_panics_exactly_without_aggregates (scripted (Ok no_aggregate))
                    "location.id" nowhere)).
    exists no_aggregate, (Build_Root []).
    split; [reflexivity|]. split; [vm_compute; reflexivity|reflexivity].
  - apply (proj2 (count_panics_exactly_without_aggregates MemStore.client
                    "location.id" populated)
             (answer_to count_call populated)
             (rows_of "nodeCount" (answer_to count_call populated))
             {| NodeCount.NodeCount := 1 |} []);
      vm_compute; reflexivity.
Defined.

Lemma count_is_read_witness :
  fst (CountNodesWithField MemStore.client "event.id" populated) = Returns (Some 1%Z, None).
Proof.
  apply (count_is_read_from_the_expected_body MemStore.client "event.id" populated
           (answer_to count_call populated) 1%Z);
    [vm_compute; reflexivity | vm_compute; reflexivity | lia].
Defined.

Lemma external_id_witness :
  GetScrape MemStore.client blank_scrape populated
    = GetScrape MemStore.client dated_blank_scrape populated /\
  GetEvent MemStore.client blank_event populated
    = GetEvent MemStore.client titled_blank_event populated /\
  Scrape.ID monday = Scrape.ID stored_monday /\
  ParseInt64 (Itoa (Scrape.ID monday)) = Some (Scrape.ID monday).
Proof.
  destruct (external_id_alone_decides_the_probe (S := MemStore.t))
    as (Hscrape & Hevent & Hcall & Hread).
  split; [|split; [|split]].
  - apply (Hscrape MemStore.client populated blank_scrape dated_blank_scrape); reflexivity.
  - apply (Hevent MemStore.client populated blank_event titled_blank_event); reflexivity.
  - apply (Hcall monday stored_monday). reflexivity.
  - apply (Hread monday). cbn [Scrape.ID monday]. lia.
Defined.

Lemma lookups_do_not_disturb_witness :
  fst (GetScrape MemStore.client monday
         (snd (run MemStore.client (NodesWithField "location.id") populated)))
    = fst (GetScrape MemStore.client monday populated) /\
  fst (CountNodesWithField MemStore.client "location.id"
         (snd (run MemStore.client (ScrapeWithID unknown_scrape) populated)))
    = fst (CountNodesWithField MemStore.client "location.id" populated).
Proof.
  split.
  - exact (proj1 (lookups_do_not_disturb_each_other MemStore.client
                    MemStore_honours_read_only (NodesWithField "location.id") populated)
             monday).
  - exact (proj2 (proj2 (proj2 (lookups_do_not_disturb_each_other MemStore.client
                                  MemStore_honours_read_only (ScrapeWithID unknown_scrape)
                                  populated)))
             "location.id").
Defined.

End MoreRuns.
